(** * SD-Core AUSF operator: the reconciliation logic of [src/charm.py]

    The charm is a set of event handlers that talk to a workload container
    (files, Pebble plan), to the Juju model (relations, unit status), to a
    certificates provider and to a few library functions.  The handlers are
    embedded as programs of a small monad: state is the observable world,
    a handler may raise, and every call to a collaborator is recorded, in
    order, in the list of calls of the run.

    The collaborators are not part of the charm.  They are modelled by what
    the charm relies on: a file store with [exists], [pull] (which raises
    [PathError] when there is no file, as [_config_file_content_matches]
    expects), [push] (which raises [PathError] when the directory of the
    file is missing and [make_dirs] is not set) and [remove_path]; a plan of named services that
    [add_layer] extends or overrides; a relation table; the output of
    [unit-get].  Failures of the connection to Pebble or to Juju in the
    middle of a handler are left out.  Key and CSR generation, the Jinja
    template and the parsing of an IPv4 address are parameters.  The
    constructor of the charm (leader check, observers, service patch) is
    not modelled: every handler below runs on one event at a time. *)

From Stdlib Require Import ZArith NArith Lia Bool List Strings.Ascii Strings.String Strings.Byte.
From stdpp Require Import base decidable option list strings gmap.

Local Open Scope string_scope.
Local Open Scope list_scope.

(** ** Python text: [bytes], [str], [bytes.decode], [str.strip] *)

Module PyText.

(** [bytes] is a list of bytes; [str] is kept as its UTF-8 text. *)
Abbreviation bytes := (list byte).
Abbreviation str := string.

Definition in_range (lo hi n : N) : bool := ((lo <=? n) && (n <=? hi))%N.

Definition continuation (b : N) : bool := in_range 128 191 b.

(** Range of the second byte of a three-byte sequence, by lead byte
    (no overlong forms, no surrogates). *)
Definition second_of_3 (b0 b1 : N) : bool :=
  if (b0 =? 224)%N then in_range 160 191 b1
  else if (b0 =? 237)%N then in_range 128 159 b1
  else continuation b1.

(** Range of the second byte of a four-byte sequence (up to U+10FFFF). *)
Definition second_of_4 (b0 b1 : N) : bool :=
  if (b0 =? 240)%N then in_range 144 191 b1
  else if (b0 =? 244)%N then in_range 128 143 b1
  else continuation b1.

(** Well-formed UTF-8, as the strict decoder of [bytes.decode()] accepts. *)
Fixpoint utf8_valid (bs : list N) : bool :=
  match bs with
  | [] => true
  | b0 :: r0 =>
    if (b0 <? 128)%N then utf8_valid r0
    else
      match r0 with
      | [] => false
      | b1 :: r1 =>
        if in_range 194 223 b0 then continuation b1 && utf8_valid r1
        else
          match r1 with
          | [] => false
          | b2 :: r2 =>
            if in_range 224 239 b0
            then second_of_3 b0 b1 && continuation b2 && utf8_valid r2
            else
              match r2 with
              | [] => false
              | b3 :: r3 =>
                in_range 240 244 b0 && second_of_4 b0 b1
                && continuation b2 && continuation b3 && utf8_valid r3
              end
          end
      end
  end.

(** [b.decode()]: [None] stands for [UnicodeDecodeError]. *)
Definition decode (b : bytes) : option str :=
  if utf8_valid (map Byte.to_N b) then Some (string_of_list_byte b) else None.

(** [s.encode()]. *)
Definition encode (s : str) : bytes := list_byte_of_string s.

(** The characters [str.isspace] accepts, by the length of their UTF-8
    form: U+0009..U+000D, U+001C..U+0020; U+0085, U+00A0; U+1680,
    U+2000..U+200A, U+2028, U+2029, U+202F, U+205F, U+3000. *)
Definition space1 (a : N) : bool := in_range 9 13 a || in_range 28 32 a.

Definition space2 (a b : N) : bool :=
  ((a =? 194) && ((b =? 133) || (b =? 160)))%N.

Definition space3 (a b c : N) : bool :=
  ((a =? 225) && (b =? 154) && (c =? 128)
   || (a =? 226) && (b =? 128)
      && (in_range 128 138 c || (c =? 168) || (c =? 169) || (c =? 175))
   || (a =? 226) && (b =? 129) && (c =? 159)
   || (a =? 227) && (b =? 128) && (c =? 128))%N.

(** Does the text start with a whitespace character?  With [back] the
    list is the text reversed, and the question is about its end. *)
Definition space_at (back : bool) (l : list N) : option nat :=
  match l with
  | a :: r1 =>
    if space1 a then Some 1
    else
      match r1 with
      | b :: r2 =>
        if (if back then space2 b a else space2 a b) then Some 2
        else
          match r2 with
          | c :: _ =>
            if (if back then space3 c b a else space3 a b c) then Some 3
            else None
          | [] => None
          end
      | [] => None
      end
  | [] => None
  end.

(** Drop whitespace characters from the front of the list. *)
Fixpoint drop_space (back : bool) (l : list N) : list N :=
  match l with
  | a :: r1 =>
    if space1 a then drop_space back r1
    else
      match r1 with
      | b :: r2 =>
        if (if back then space2 b a else space2 a b) then drop_space back r2
        else
          match r2 with
          | c :: r3 =>
            if (if back then space3 c b a else space3 a b c)
            then drop_space back r3
            else l
          | [] => l
          end
      | [] => l
      end
  | [] => []
  end.

Definition codes (s : str) : list N := map N_of_ascii (list_ascii_of_string s).
Definition of_codes (l : list N) : str := string_of_list_ascii (map ascii_of_N l).

Definition lstrip_codes (l : list N) : list N := drop_space false l.
Definition rstrip_codes (l : list N) : list N := rev (drop_space true (rev l)).

(** [s.strip()] *)
Definition strip (s : str) : str := of_codes (rstrip_codes (lstrip_codes (codes s))).

(** The text carries leading or trailing whitespace. *)
Definition outer_whitespace (s : str) : bool :=
  bool_decide (is_Some (space_at false (codes s)))
  || bool_decide (is_Some (space_at true (rev (codes s)))).

(** Python truthiness of [Optional[str]]: [None] and [""] are false. *)
Definition truthy (o : option str) : bool :=
  match o with
  | Some s => negb (String.eqb s "")
  | None => false
  end.

End PyText.

Import PyText.

(** ** Constants of the charm *)

Definition AUSF_GROUP_ID : str := "ausfGroup001".
Definition SBI_PORT : Z := 29509.
Definition CONFIG_DIR : str := "/free5gc/config".
Definition CONFIG_FILE_NAME : str := "ausfcfg.conf".
Definition CONFIG_TEMPLATE_DIR : str := "src/templates/".
Definition CONFIG_TEMPLATE_NAME : str := "ausfcfg.conf.j2".
Definition CERTS_DIR_PATH : str := "/support/TLS".
Definition PRIVATE_KEY_NAME : str := "ausf.key".
Definition CSR_NAME : str := "ausf.csr".
Definition CERTIFICATE_NAME : str := "ausf.pem".
Definition CERTIFICATE_COMMON_NAME : str := "ausf.sdcore".

(** The f-strings [f"{CONFIG_DIR}/{CONFIG_FILE_NAME}"] and
    [f"{CERTS_DIR_PATH}/{...}"] of the source, evaluated once. *)
Definition config_path : str :=
  Eval vm_compute in (CONFIG_DIR ++ "/" ++ CONFIG_FILE_NAME)%string.
Definition private_key_path : str :=
  Eval vm_compute in (CERTS_DIR_PATH ++ "/" ++ PRIVATE_KEY_NAME)%string.
Definition csr_path : str :=
  Eval vm_compute in (CERTS_DIR_PATH ++ "/" ++ CSR_NAME)%string.
Definition certificate_path : str :=
  Eval vm_compute in (CERTS_DIR_PATH ++ "/" ++ CERTIFICATE_NAME)%string.

(** [self._container_name = self._service_name = "ausf"] *)
Definition _container_name : str := "ausf".
Definition _service_name : str := "ausf".

(** ** Data *)

(** An entry of the workload's file system. *)
Inductive node : Type :=
| Dir
| File (content : str).

(** A Pebble service, with the fields the charm's layer sets; two
    services are compared field by field, the environment as a map. *)
Record Service : Type := mkService {
  override : str;
  startup : str;
  command : str;
  environment : gmap string (option str);
}.

(** A Pebble layer: its named services. *)
Record Layer : Type := mkLayer { services : gmap string Service }.

Inductive StatusBase : Type :=
| UnknownStatus
| ActiveStatus
| BlockedStatus (message : str)
| WaitingStatus (message : str).

Inductive level : Type := DEBUG | INFO | WARNING.

(** The bindings handed to [template.render]. *)
Record bindings : Type := mkBindings {
  ausf_group_id : str;
  ausf_ip : option str;
  nrf_url : option str;
  sbi_port : Z;
  scheme : str;
}.

Record CertificateAvailableEvent : Type := mkAvailable {
  available_certificate : str;
  certificate_signing_request : str;
}.

Record CertificateExpiringEvent : Type := mkExpiring {
  expiring_certificate : str;
}.

Inductive exn : Type :=
| PathError (path : str)
| UnicodeDecodeError
| AddressValueError.

(** One call to a collaborator, as a run records it. *)
Inductive call : Type :=
| CanConnect
| GetRelation (relation_name : str)
| ReadNrfUrl
| Exists (path : str)
| CheckOutput (argv : list str)
| Pull (path : str)
| Push (path : str) (source : str) (make_dirs : bool)
| RemovePath (path : str)
| GetPlan
| AddLayer (label : str) (layer : Layer) (combine : bool)
| Restart (service : str)
| SetStatus (status : StatusBase)
| Defer
| Log (lvl : level) (message : str)
| GeneratePrivateKey
| GenerateCsr (private_key : bytes) (subject : str) (sans_dns : list str)
| RequestCertificateCreation (csr : bytes)
| Render (template_name : str) (b : bindings).

#[global] Instance node_eq_dec : EqDecision node.
Proof. solve_decision. Defined.
#[global] Instance Service_eq_dec : EqDecision Service.
Proof. solve_decision. Defined.
#[global] Instance Layer_eq_dec : EqDecision Layer.
Proof. solve_decision. Defined.
#[global] Instance StatusBase_eq_dec : EqDecision StatusBase.
Proof. solve_decision. Defined.
#[global] Instance level_eq_dec : EqDecision level.
Proof. solve_decision. Defined.
#[global] Instance bindings_eq_dec : EqDecision bindings.
Proof. solve_decision. Defined.
#[global] Instance byte_eq_dec : EqDecision byte.
Proof. intros a b. unfold Decision. destruct (Byte.byte_eq_dec a b); [left|right]; assumption. Defined.
#[global] Instance call_eq_dec : EqDecision call.
Proof. solve_decision. Defined.

(** The world a handler runs in: what the collaborators answer, and what
    the handler has changed so far. *)
Record world : Type := mkWorld {
  (** Pebble in the workload container answers *)
  reachable : bool;
  (** established relations of the unit, by name, with their id *)
  relations : gmap string nat;
  (** [self._nrf_requires.nrf_url] *)
  published_nrf_url : option str;
  (** what [unit-get private-address] prints *)
  private_address : bytes;
  (** the workload's files *)
  files : gmap string node;
  (** the services of the current Pebble plan *)
  plan_services : gmap string Service;
  (** [self.unit.status] *)
  unit_status : StatusBase;
  (** the event being handled has been deferred *)
  deferred : bool;
  (** certificate requests sent to the provider, oldest first *)
  requested : list bytes;
  (** number of random draws made so far *)
  draws : nat;
}.

(** ** The monad of handlers *)

Inductive result (A : Type) : Type :=
| Ok (a : A)
| Raise (e : exn).
Arguments Ok {A} a.
Arguments Raise {A} e.

Record outcome (A : Type) : Type := mkOutcome {
  res : result A;
  final : world;
  calls : list call;
}.
Arguments mkOutcome {A} res final calls.
Arguments res {A} o.
Arguments final {A} o.
Arguments calls {A} o.

Definition M (A : Type) : Type := world -> outcome A.

Definition ret {A} (a : A) : M A := fun w => mkOutcome (Ok a) w [].

Definition raise {A} (e : exn) : M A := fun w => mkOutcome (Raise e) w [].

(** The calls made before an outcome are put in front of its own. *)
Definition prepend {A} (made : list call) (o : outcome A) : outcome A :=
  match o with
  | mkOutcome r w made' => mkOutcome r w (made ++ made')
  end.

Definition bind {A B} (m : M A) (f : A -> M B) : M B := fun w =>
  match m w with
  | mkOutcome (Ok a) w1 made => prepend made (f a w1)
  | mkOutcome (Raise e) w1 made => mkOutcome (Raise e) w1 made
  end.

(** [try: m except PathError: h] *)
Definition try_except_PathError {A} (m : M A) (h : M A) : M A := fun w =>
  match m w with
  | mkOutcome (Raise (PathError _)) w1 made => prepend made (h w1)
  | o => o
  end.

Declare Scope charm_scope.
Delimit Scope charm_scope with charm.
Notation "x <- m ;; k" := (bind m (fun x => k))
  (at level 100, m at next level, right associativity) : charm_scope.
Notation "m ;; k" := (bind m (fun _ => k))
  (at level 100, right associativity) : charm_scope.
Local Open Scope charm_scope.

(** A call that only observes the world. *)
Definition observe {A} (c : call) (f : world -> A) : M A := fun w =>
  mkOutcome (Ok (f w)) w [c].

(** A call that changes the world. *)
Definition act (c : call) (f : world -> world) : M unit := fun w =>
  mkOutcome (Ok tt) (f w) [c].

(** Lift of an optional value: [None] raises. *)
Definition or_raise {A} (o : option A) (e : exn) : M A :=
  match o with
  | Some a => ret a
  | None => raise e
  end.

(** ** World updates *)

Definition set_files (f : gmap string node -> gmap string node) (w : world) : world :=
  mkWorld (reachable w) (relations w) (published_nrf_url w) (private_address w)
          (f (files w)) (plan_services w) (unit_status w) (deferred w)
          (requested w) (draws w).

Definition set_plan (f : gmap string Service -> gmap string Service) (w : world) : world :=
  mkWorld (reachable w) (relations w) (published_nrf_url w) (private_address w)
          (files w) (f (plan_services w)) (unit_status w) (deferred w)
          (requested w) (draws w).

Definition set_unit_status (s : StatusBase) (w : world) : world :=
  mkWorld (reachable w) (relations w) (published_nrf_url w) (private_address w)
          (files w) (plan_services w) s (deferred w) (requested w) (draws w).

Definition set_deferred (w : world) : world :=
  mkWorld (reachable w) (relations w) (published_nrf_url w) (private_address w)
          (files w) (plan_services w) (unit_status w) true (requested w) (draws w).

Definition add_request (csr : bytes) (w : world) : world :=
  mkWorld (reachable w) (relations w) (published_nrf_url w) (private_address w)
          (files w) (plan_services w) (unit_status w) (deferred w)
          (requested w ++ [csr]) (draws w).

Definition next_draw (w : world) : world :=
  mkWorld (reachable w) (relations w) (published_nrf_url w) (private_address w)
          (files w) (plan_services w) (unit_status w) (deferred w)
          (requested w) (S (draws w)).

(** The directories above a path: ["/a/b/c"] has ["/a"] and ["/a/b"]. *)
Fixpoint parents_from (seen : str) (rest : str) : list str :=
  match rest with
  | EmptyString => []
  | String c rest' =>
    (if Ascii.eqb c "/" && negb (String.eqb seen "") then [seen] else [])
      ++ parents_from (seen ++ String c EmptyString)%string rest'
  end.

Definition parents (path : str) : list str := parents_from "" path.

(** Create a directory unless something is there already. *)
Definition make_dir (d : str) (fs : gmap string node) : gmap string node :=
  match fs !! d with
  | Some _ => fs
  | None => <[d := Dir]> fs
  end.

(** Write a file, overwriting; with [make_dirs] the directories above it
    are created as needed. *)
Definition write_file (path source : str) (make_dirs : bool)
    (fs : gmap string node) : gmap string node :=
  <[path := File source]>
    (if make_dirs then foldr make_dir fs (parents path) else fs).

(** A directory exists when it is an entry of the store, or when an entry
    of the store lies below it. *)
Definition directory_exists (d : str) (fs : gmap string node) : bool :=
  bool_decide (fs !! d = Some Dir)
  || existsb (fun entry => existsb (String.eqb d) (parents (fst entry)))
             (map_to_list fs).

(** The directory a path lies in exists; a path directly under the root
    lies in the root. *)
Definition parent_exists (path : str) (fs : gmap string node) : bool :=
  match last (parents path) with
  | Some d => directory_exists d fs
  | None => true
  end.

(** ** The charm *)

Section Charm.

(** The Jinja template [src/templates/ausfcfg.conf.j2], as the function
    from its bindings to the rendered text. *)
Variable template : bindings -> str.

(** [generate_private_key()] and [generate_csr(...)] of the certificates
    library; the first argument is the random draw. *)
Variable private_key_of_draw : nat -> bytes.
Variable csr_of_draw : nat -> bytes -> str -> list str -> bytes.

(** [str(IPv4Address(s))]; [None] stands for [AddressValueError]. *)
Variable IPv4Address : str -> option str.

(** *** Collaborators *)

(** [self._container.can_connect()] *)
Definition can_connect : M bool := observe CanConnect reachable.

(** Something, file or directory, is at the path. *)
Definition stored (path : str) (w : world) : bool :=
  bool_decide (is_Some (files w !! path)).

(** [self._container.exists(path)] *)
Definition exists_ (path : str) : M bool := observe (Exists path) (stored path).

(** [self._container.pull(path).read()]: [PathError] unless a file is there. *)
Definition pull (path : str) : M str := fun w =>
  match files w !! path with
  | Some (File content) => mkOutcome (Ok content) w [Pull path]
  | _ => mkOutcome (Raise (PathError path)) w [Pull path]
  end.

(** [self._container.push(path, source, make_dirs)]: the file is written,
    over what was there.  Without [make_dirs] the directory the path lies
    in must exist: otherwise Pebble answers with a [PathError] and
    nothing is written. *)
Definition push (path source : str) (make_dirs : bool) : M unit := fun w =>
  if make_dirs || parent_exists path (files w)
  then mkOutcome (Ok tt) (set_files (write_file path source make_dirs) w)
                 [Push path source make_dirs]
  else mkOutcome (Raise (PathError path)) w [Push path source make_dirs].

(** [self._container.remove_path(path)]: [PathError] when nothing is there. *)
Definition remove_path (path : str) : M unit := fun w =>
  match files w !! path with
  | Some _ => mkOutcome (Ok tt) (set_files (delete path) w) [RemovePath path]
  | None => mkOutcome (Raise (PathError path)) w [RemovePath path]
  end.

(** [self._container.get_plan()] *)
Definition get_plan : M Layer := observe GetPlan (fun w => mkLayer (plan_services w)).

(** [self._container.add_layer(label, layer, combine=...)]: the services
    of the layer replace the entries of the plan that have their names. *)
Definition add_layer (label : str) (layer : Layer) (combine : bool) : M unit :=
  act (AddLayer label layer combine) (set_plan (fun p => services layer ∪ p)).

(** [self._container.restart(name)] *)
Definition restart (name : str) : M unit := act (Restart name) id.

(** [logger.debug/info/warning(message)] *)
Definition logger (lvl : level) (message : str) : M unit := act (Log lvl message) id.

(** [self.unit.status = s] *)
Definition set_status (s : StatusBase) : M unit := act (SetStatus s) (set_unit_status s).

(** [event.defer()] *)
Definition defer : M unit := act Defer set_deferred.

(** [self.model.get_relation(name)] *)
Definition get_relation (name : str) : M (option nat) :=
  observe (GetRelation name) (fun w => relations w !! name).

(** [self._nrf_requires.nrf_url] *)
Definition read_nrf_url : M (option str) := observe ReadNrfUrl published_nrf_url.

(** [check_output(["unit-get", "private-address"])] *)
Definition check_output (argv : list str) : M bytes :=
  observe (CheckOutput argv) private_address.

(** [generate_private_key()] *)
Definition generate_private_key : M bytes := fun w =>
  mkOutcome (Ok (private_key_of_draw (draws w))) (next_draw w) [GeneratePrivateKey].

(** [generate_csr(private_key=..., subject=..., sans_dns=...)] *)
Definition generate_csr (private_key : bytes) (subject : str) (sans_dns : list str)
  : M bytes := fun w =>
  mkOutcome (Ok (csr_of_draw (draws w) private_key subject sans_dns)) (next_draw w)
            [GenerateCsr private_key subject sans_dns].

(** [self._certificates.request_certificate_creation(certificate_signing_request=csr)] *)
Definition request_certificate_creation (csr : bytes) : M unit :=
  act (RequestCertificateCreation csr) (add_request csr).

(** [jinja2_environment.get_template(name).render(...)] *)
Definition render (name : str) (b : bindings) : M str :=
  observe (Render name b) (fun _ => template b).

(** *** Functions of [charm.py] *)

Definition _get_pod_ip : M (option str) :=
  ip_address <- check_output ["unit-get"; "private-address"];;
  match ip_address with
  | [] => ret None
  | _ =>
    text <- or_raise (decode ip_address) UnicodeDecodeError;;
    address <- or_raise (IPv4Address (strip text)) AddressValueError;;
    ret (Some address)
  end.

Definition _relation_created (relation_name : str) : M bool :=
  r <- get_relation relation_name;;
  ret (bool_decide (is_Some r)).

Definition _nrf_data_is_available : M bool :=
  url <- read_nrf_url;;
  ret (truthy url).

Definition _ausf_environment_variables : M (gmap string (option str)) :=
  pod_ip <- _get_pod_ip;;
  ret (<["GOTRACEBACK" := Some "crash"]>
       (<["GRPC_GO_LOG_VERBOSITY_LEVEL" := Some "99"]>
       (<["GRPC_GO_LOG_SEVERITY_LEVEL" := Some "info"]>
       (<["GRPC_TRACE" := Some "all"]>
       (<["GRPC_VERBOSITY" := Some "DEBUG"]>
       (<["POD_IP" := pod_ip]>
       (<["MANAGED_BY_CONFIG_POD" := Some "true"]> ∅))))))).

Definition _pebble_layer : M Layer :=
  env <- _ausf_environment_variables;;
  ret (mkLayer
         {[ _service_name :=
              mkService "replace" "enabled"
                        ("/bin/ausf --ausfcfg " ++ CONFIG_DIR ++ "/" ++ CONFIG_FILE_NAME)%string
                        env ]}).

Definition _private_key_is_stored : M bool := exists_ private_key_path.
Definition _csr_is_stored : M bool := exists_ csr_path.
Definition _certificate_is_stored : M bool := exists_ certificate_path.

Definition _get_stored_certificate : M str := pull certificate_path.
Definition _get_stored_csr : M str := pull csr_path.
Definition _get_stored_private_key : M bytes :=
  text <- pull private_key_path;;
  ret (encode text).

Definition _store_certificate (certificate : str) : M unit :=
  push certificate_path certificate false;;
  logger INFO "Pushed certificate pushed to workload".

Definition _store_private_key (private_key : bytes) : M unit :=
  text <- or_raise (decode private_key) UnicodeDecodeError;;
  push private_key_path text false;;
  logger INFO "Pushed private key to workload".

Definition _store_csr (csr : bytes) : M unit :=
  text <- or_raise (decode csr) UnicodeDecodeError;;
  push csr_path (strip text) false;;
  logger INFO "Pushed CSR to workload".

Definition _generate_private_key : M unit :=
  private_key <- generate_private_key;;
  _store_private_key private_key.

Definition _request_new_certificate : M unit :=
  private_key <- _get_stored_private_key;;
  csr <- generate_csr private_key CERTIFICATE_COMMON_NAME [CERTIFICATE_COMMON_NAME];;
  _store_csr csr;;
  request_certificate_creation csr.

Definition _delete_private_key : M unit :=
  stored <- _private_key_is_stored;;
  if negb stored then ret tt
  else
    remove_path private_key_path;;
    logger INFO "Removed private key from workload".

Definition _delete_csr : M unit :=
  stored <- _csr_is_stored;;
  if negb stored then ret tt
  else
    remove_path csr_path;;
    logger INFO "Removed CSR from workload".

Definition _delete_certificate : M unit :=
  stored <- _certificate_is_stored;;
  if negb stored then ret tt
  else
    remove_path certificate_path;;
    logger INFO "Removed certificate from workload".

Definition _render_config_file (ausf_group_id : str) (ausf_ip : option str)
    (sbi_port : Z) (nrf_url : option str) (scheme : str) : M str :=
  render CONFIG_TEMPLATE_NAME (mkBindings ausf_group_id ausf_ip nrf_url sbi_port scheme).

Definition _config_file_content_matches (content : str) : M bool :=
  try_except_PathError
    (existing_content <- pull config_path;;
     ret (String.eqb existing_content content))
    (ret false).

Definition _push_config_file (content : str) : M unit :=
  push config_path content true;;
  logger INFO "Pushed ausfcfg.conf config file".

Definition _apply_ausf_config : M bool :=
  ausf_ip <- _get_pod_ip;;
  nrf_url <- read_nrf_url;;
  secure <- _certificate_is_stored;;
  content <- _render_config_file AUSF_GROUP_ID ausf_ip SBI_PORT nrf_url
               (if secure then "https" else "http");;
  matches <- _config_file_content_matches content;;
  if negb matches then
    _push_config_file content;;
    ret true
  else ret false.

Definition _configure_ausf_service (force_restart : bool) : M unit :=
  pebble_layer <- _pebble_layer;;
  plan <- get_plan;;
  if bool_decide (services plan ≠ services pebble_layer) || force_restart then
    add_layer _container_name pebble_layer true;;
    restart _service_name;;
    logger INFO "Restarted container ausf"
  else ret tt.

Definition _configure_ausf : M unit :=
  connected <- can_connect;;
  if negb connected then
    set_status (WaitingStatus "Waiting for container to start");;
    defer
  else
  created <- _relation_created "fiveg_nrf";;
  if negb created then
    set_status (BlockedStatus "Waiting for fiveg_nrf relation")
  else
  available <- _nrf_data_is_available;;
  if negb available then
    set_status (WaitingStatus "Waiting for NRF data to be available");;
    defer
  else
  attached <- exists_ CONFIG_DIR;;
  if negb attached then
    set_status (WaitingStatus "Waiting for storage to be attached");;
    defer
  else
  pod_ip <- _get_pod_ip;;
  if negb (truthy pod_ip) then
    set_status (WaitingStatus "Waiting for pod IP address to be available");;
    defer
  else
  config_file_changed <- _apply_ausf_config;;
  _configure_ausf_service config_file_changed;;
  set_status ActiveStatus.

Definition _on_certificates_relation_created : M unit :=
  connected <- can_connect;;
  if negb connected then defer
  else _generate_private_key.

Definition _on_certificates_relation_broken : M unit :=
  connected <- can_connect;;
  if negb connected then defer
  else
    _delete_private_key;;
    _delete_csr;;
    _delete_certificate;;
    _configure_ausf.

Definition _on_certificates_relation_joined : M unit :=
  connected <- can_connect;;
  if negb connected then defer
  else
  stored <- _private_key_is_stored;;
  if negb stored then defer
  else _request_new_certificate.

Definition _on_certificate_available (event : CertificateAvailableEvent) : M unit :=
  connected <- can_connect;;
  if negb connected then defer
  else
  stored <- _csr_is_stored;;
  if negb stored then
    logger WARNING "Certificate is available but no CSR is stored"
  else
  stored_csr <- _get_stored_csr;;
  if negb (String.eqb (certificate_signing_request event) stored_csr) then
    logger DEBUG "Stored CSR doesn't match one in certificate available event"
  else
    _store_certificate (available_certificate event);;
    _configure_ausf.

Definition _on_certificate_expiring (event : CertificateExpiringEvent) : M unit :=
  connected <- can_connect;;
  if negb connected then defer
  else
  stored_certificate <- _get_stored_certificate;;
  if negb (String.eqb (expiring_certificate event) stored_certificate) then
    logger DEBUG "Expiring certificate is not the one stored"
  else _request_new_certificate.

(** *** Readiness facts and other observations of a world *)

Definition container_reachable (w : world) : bool := reachable w.

Definition relation_exists (w : world) : bool :=
  bool_decide (is_Some (relations w !! "fiveg_nrf")).

Definition data_available (w : world) : bool := truthy (published_nrf_url w).

Definition storage_attached (w : world) : bool := stored CONFIG_DIR w.

(** What [_get_pod_ip()] answers in a world. *)
Definition pod_ip (w : world) : result (option str) := res (_get_pod_ip w).

(** The five checks of [_configure_ausf], as calls, in source order. *)
Definition readiness_checks : list call :=
  [CanConnect; GetRelation "fiveg_nrf"; ReadNrfUrl; Exists CONFIG_DIR;
   CheckOutput ["unit-get"; "private-address"]].

(** The configuration [_apply_ausf_config] renders in a world where the
    pod address is [ip]. *)
Definition desired_bindings (ip : option str) (w : world) : bindings :=
  mkBindings AUSF_GROUP_ID ip (published_nrf_url w) SBI_PORT
             (if stored certificate_path w then "https" else "http").

Definition desired_config (ip : option str) (w : world) : str :=
  template (desired_bindings ip w).

(** The layer [_pebble_layer] computes when the pod address is [ip]. *)
Definition desired_layer (ip : option str) : Layer :=
  mkLayer
    {[ _service_name :=
         mkService "replace" "enabled"
                   ("/bin/ausf --ausfcfg " ++ CONFIG_DIR ++ "/" ++ CONFIG_FILE_NAME)%string
                   (<["GOTRACEBACK" := Some "crash"]>
                    (<["GRPC_GO_LOG_VERBOSITY_LEVEL" := Some "99"]>
                    (<["GRPC_GO_LOG_SEVERITY_LEVEL" := Some "info"]>
                    (<["GRPC_TRACE" := Some "all"]>
                    (<["GRPC_VERBOSITY" := Some "DEBUG"]>
                    (<["POD_IP" := ip]>
                    (<["MANAGED_BY_CONFIG_POD" := Some "true"]> ∅))))))) ]}.

(** The world after the three identity artifacts are deleted. *)
Definition without_identity (w : world) : world :=
  set_files (fun fs => delete certificate_path
                         (delete csr_path (delete private_key_path fs))) w.

(** What deleting one artifact records. *)
Definition deletion_calls (path message : str) (w : world) : list call :=
  Exists path ::
    (if stored path w then [RemovePath path; Log INFO message] else []).

Definition is_push (c : call) : bool :=
  match c with Push _ _ _ => true | _ => false end.

Definition is_supervisor_change (c : call) : bool :=
  match c with AddLayer _ _ _ | Restart _ => true | _ => false end.

(** What [_apply_ausf_config] records before it decides. *)
Definition reconcile_prefix (ip : option str) (w : world) : list call :=
  [CheckOutput ["unit-get"; "private-address"]; ReadNrfUrl;
   Exists certificate_path;
   Render CONFIG_TEMPLATE_NAME (desired_bindings ip w);
   Pull config_path].

(** The world after a check of [_configure_ausf] asks to wait. *)
Definition waiting (message : str) (w : world) : world :=
  set_deferred (set_unit_status (WaitingStatus message) w).

(** All five checks hold: the pass goes on to the configuration file and
    to the service. *)
Definition ready (w : world) (ip : option str) : Prop :=
  container_reachable w = true /\ relation_exists w = true /\
  data_available w = true /\ storage_attached w = true /\
  pod_ip w = Ok ip /\ truthy ip = true.


(** *** The precondition gate, in the words of the design *)

(** What the gate decides. *)
Inductive GateResult : Type :=
| Proceed
| DeferRetry (reason : str)
| Block (reason : str).

(** The five readiness checks. *)
Inductive check : Type :=
| ContainerReachable
| RelationExists
| DataAvailable
| StorageAttached
| AddressResolvable.

Definition checks_in_order : list check :=
  [ContainerReachable; RelationExists; DataAvailable; StorageAttached;
   AddressResolvable].

Definition position (c : check) : nat :=
  match c with
  | ContainerReachable => 0
  | RelationExists => 1
  | DataAvailable => 2
  | StorageAttached => 3
  | AddressResolvable => 4
  end.

(** The pod address is looked up without error and is empty. *)
Definition address_unresolved (w : world) : bool :=
  match pod_ip w with
  | Ok ip => negb (truthy ip)
  | Raise _ => false
  end.

Definition fails (c : check) (w : world) : bool :=
  match c with
  | ContainerReachable => negb (container_reachable w)
  | RelationExists => negb (relation_exists w)
  | DataAvailable => negb (data_available w)
  | StorageAttached => negb (storage_attached w)
  | AddressResolvable => address_unresolved w
  end.

(** [c] fails and no check before it does. *)
Definition first_to_fail (c : check) (w : world) : bool :=
  fails c w && forallb (fun c' => negb (fails c' w)) (firstn (position c) checks_in_order).

(** Transient conditions, as opposed to missing operator configuration. *)
Definition transient (c : check) : bool :=
  match c with
  | RelationExists => false
  | _ => true
  end.

(** What the gate answers when it stops at a check, with the status
    messages of [_configure_ausf]. *)
Definition verdict (c : check) : GateResult :=
  match c with
  | ContainerReachable => DeferRetry "Waiting for container to start"
  | RelationExists => Block "Waiting for fiveg_nrf relation"
  | DataAvailable => DeferRetry "Waiting for NRF data to be available"
  | StorageAttached => DeferRetry "Waiting for storage to be attached"
  | AddressResolvable => DeferRetry "Waiting for pod IP address to be available"
  end.

(** How a verdict shows in the calls of a pass and in the world. *)
Definition verdict_calls (g : GateResult) : list call :=
  match g with
  | Proceed => []
  | DeferRetry reason => [SetStatus (WaitingStatus reason); Defer]
  | Block reason => [SetStatus (BlockedStatus reason)]
  end.

Definition after_verdict (g : GateResult) (w : world) : world :=
  match g with
  | Proceed => w
  | DeferRetry reason => waiting reason w
  | Block reason => set_unit_status (BlockedStatus reason) w
  end.

(** *** A pass that proceeds, step by step *)

(** The stored configuration file differs from the rendered one. *)
Definition config_changed (ip : option str) (w : world) : bool :=
  negb (bool_decide (files w !! config_path = Some (File (desired_config ip w)))).

(** The plan differs from the computed layer. *)
Definition spec_changed (ip : option str) (w : world) : bool :=
  bool_decide (plan_services w ≠ services (desired_layer ip)).

Definition reconciled (ip : option str) (w : world) : world :=
  if config_changed ip w
  then set_files (write_file config_path (desired_config ip w) true) w
  else w.

Definition reconcile_calls (ip : option str) (w : world) : list call :=
  reconcile_prefix ip w
  ++ (if config_changed ip w
      then [Push config_path (desired_config ip w) true;
            Log INFO "Pushed ausfcfg.conf config file"]
      else []).

Definition supervised (ip : option str) (force_restart : bool) (w : world) : world :=
  if spec_changed ip w || force_restart
  then set_plan (fun p => services (desired_layer ip) ∪ p) w
  else w.

Definition supervise_calls (ip : option str) (force_restart : bool) (w : world)
  : list call :=
  [CheckOutput ["unit-get"; "private-address"]; GetPlan]
  ++ (if spec_changed ip w || force_restart
      then [AddLayer _container_name (desired_layer ip) true;
            Restart _service_name; Log INFO "Restarted container ausf"]
      else []).

Definition is_add_layer (c : call) : bool :=
  match c with AddLayer _ _ _ => true | _ => false end.

Definition is_restart (c : call) : bool :=
  match c with Restart _ => true | _ => false end.

(** No file is written and the service is left alone. *)
Definition quiet (c : call) : bool :=
  negb (is_push c) && negb (is_supervisor_change c).

(** *** Sample collaborators and worlds, for concrete runs *)

Definition sample_newline : str := String "010" EmptyString.

(** A stand-in for the Jinja template. *)
Definition sample_template (b : bindings) : str :=
  (scheme b ++ "://" ++ default "" (ausf_ip b) ++ " nrfUri=" ++ default "" (nrf_url b)
   ++ " group=" ++ ausf_group_id b)%string.

Definition sample_private_key_of_draw (_ : nat) : bytes :=
  list_byte_of_string ("-----NEW PRIVATE KEY-----" ++ sample_newline)%string.

Definition sample_csr_of_draw (_ : nat) (_ : bytes) (subject : str) (_ : list str) : bytes :=
  list_byte_of_string
    ("-----BEGIN CERTIFICATE REQUEST----- CN=" ++ subject
     ++ " -----END CERTIFICATE REQUEST-----" ++ sample_newline)%string.

Definition sample_csr_text : str :=
  ("-----BEGIN CERTIFICATE REQUEST----- CN=" ++ CERTIFICATE_COMMON_NAME
   ++ " -----END CERTIFICATE REQUEST-----" ++ sample_newline)%string.

Definition sample_address : str := "10.1.0.7".

Definition sample_IPv4Address (s : str) : option str :=
  if String.eqb s sample_address then Some s else None.

Definition sample_nrf : str := "http://nrf:29510".

(** A new unit: container up, relation and data there, storage mounted,
    nothing written yet. *)
Definition sample_fresh : world :=
  mkWorld true {[ "fiveg_nrf" := 0 ]} (Some sample_nrf)
          (list_byte_of_string (sample_address ++ sample_newline)%string)
          {[ CONFIG_DIR := Dir ]} ∅ UnknownStatus false [] 0.

(** The container does not answer, and the relation is missing too. *)
Definition sample_unreachable : world :=
  mkWorld false ∅ None [] ∅ ∅ UnknownStatus false [] 0.

(** The container answers and the relation is missing. *)
Definition sample_unrelated : world :=
  mkWorld true ∅ None [] ∅ ∅ UnknownStatus false [] 0.

Definition sample_rendered : str :=
  sample_template
    (mkBindings AUSF_GROUP_ID (Some sample_address) (Some sample_nrf) SBI_PORT "http").

(** A unit on which a pass has already run: the configuration file and
    the plan are the ones a pass computes. *)
Definition sample_converged : world :=
  mkWorld true {[ "fiveg_nrf" := 0 ]} (Some sample_nrf)
          (list_byte_of_string (sample_address ++ sample_newline)%string)
          (<[ config_path := File sample_rendered ]>
             (<[ CONFIG_DIR := Dir ]> {[ "/free5gc" := Dir ]}))
          (services (desired_layer (Some sample_address))) ActiveStatus false [] 0.

(** A unit whose workload holds a private key, a CSR and a certificate. *)
Definition sample_certified : world :=
  mkWorld true {[ "fiveg_nrf" := 0 ]} (Some sample_nrf)
          (list_byte_of_string (sample_address ++ sample_newline)%string)
          (<[ private_key_path := File "-----OLD PRIVATE KEY-----" ]>
             (<[ csr_path := File "stored csr" ]>
                (<[ certificate_path := File "stored certificate" ]>
                   {[ CONFIG_DIR := Dir ]})))
          ∅ UnknownStatus false [] 0.



(** *** Further observations *)

(** A call that creates, removes or uses an identity artifact. *)
Definition is_identity_call (c : call) : bool :=
  match c with
  | RemovePath _ | GeneratePrivateKey | GenerateCsr _ _ _
  | RequestCertificateCreation _ => true
  | Push path _ _ =>
    String.eqb path private_key_path || String.eqb path csr_path
    || String.eqb path certificate_path
  | _ => false
  end.

(** What a certificate handler does while the container is unreachable. *)
Definition only_deferred (w : world) : outcome unit :=
  mkOutcome (Ok tt) (set_deferred w) [CanConnect; Defer].

(** The CSR [_request_new_certificate] generates from a stored key. *)
Definition csr_for (key : str) (w : world) : bytes :=
  csr_of_draw (draws w) (encode key) CERTIFICATE_COMMON_NAME [CERTIFICATE_COMMON_NAME].

(** *** Further sample collaborators and worlds *)

(** A unit whose [unit-get] prints something that is not an address. *)
Definition sample_misaddressed : world :=
  mkWorld true {[ "fiveg_nrf" := 0 ]} (Some sample_nrf)
          (list_byte_of_string ("localhost" ++ sample_newline)%string)
          {[ CONFIG_DIR := Dir ]} ∅ UnknownStatus false [] 0.

(** A unit whose plan also holds a service of another layer. *)
Definition sample_shared : world :=
  mkWorld true {[ "fiveg_nrf" := 0 ]} (Some sample_nrf)
          (list_byte_of_string (sample_address ++ sample_newline)%string)
          {[ CONFIG_DIR := Dir ]}
          {[ "sidecar" := mkService "replace" "enabled" "/bin/sidecar" ∅ ]}
          UnknownStatus false [] 0.

(** A CSR generator whose output has no whitespace around it. *)
Definition sample_bare_csr_of_draw
    (_ : nat) (_ : bytes) (subject : str) (_ : list str) : bytes :=
  list_byte_of_string ("-----BEGIN CERTIFICATE REQUEST----- CN=" ++ subject
                       ++ " -----END CERTIFICATE REQUEST-----")%string.

Definition sample_bare_csr_text : str :=
  ("-----BEGIN CERTIFICATE REQUEST----- CN=" ++ CERTIFICATE_COMMON_NAME
   ++ " -----END CERTIFICATE REQUEST-----")%string.

Definition sample_key : str := "-----OLD PRIVATE KEY-----".

(** A new unit whose workload has the certificates directory. *)
Definition sample_mounted : world :=
  mkWorld true {[ "fiveg_nrf" := 0 ]} (Some sample_nrf)
          (list_byte_of_string (sample_address ++ sample_newline)%string)
          (<[ CERTS_DIR_PATH := Dir ]> {[ CONFIG_DIR := Dir ]})
          ∅ UnknownStatus false [] 0.
(** *** Text *)

Lemma drop_space_suffix back l : exists pre, l = pre ++ drop_space back l.
Proof.
  remember (length l) as n eqn:Hn. revert l Hn.
  induction n as [n IH] using lt_wf_ind. intros l Hn.
  destruct l as [|a r1]; [exists []; reflexivity|].
  cbn [drop_space]. destruct (space1 a).
  { destruct (IH (length r1)) with (l := r1) as [pre Hpre]; [subst; cbn; lia|reflexivity|].
    exists (a :: pre). cbn. congruence. }
  destruct r1 as [|b r2]; [exists []; reflexivity|].
  destruct (if back then space2 b a else space2 a b).
  { destruct (IH (length r2)) with (l := r2) as [pre Hpre]; [subst; cbn; lia|reflexivity|].
    exists (a :: b :: pre). cbn. congruence. }
  destruct r2 as [|c r3]; [exists []; reflexivity|].
  destruct (if back then space3 c b a else space3 a b c).
  { destruct (IH (length r3)) with (l := r3) as [pre Hpre]; [subst; cbn; lia|reflexivity|].
    exists (a :: b :: c :: pre). cbn. congruence. }
  exists []. reflexivity.
Qed.

Lemma drop_space_length back l : length (drop_space back l) <= length l.
Proof.
  destruct (drop_space_suffix back l) as [pre Hpre].
  rewrite Hpre at 2. rewrite length_app. lia.
Qed.

Lemma drop_space_shorter back l :
  is_Some (space_at back l) -> length (drop_space back l) < length l.
Proof.
  intros [k Hk]. destruct l as [|a r1]; [discriminate|].
  cbn [drop_space]. cbn [space_at] in Hk. destruct (space1 a).
  { pose proof (drop_space_length back r1). cbn. lia. }
  destruct r1 as [|b r2]; [discriminate|].
  destruct (if back then space2 b a else space2 a b).
  { pose proof (drop_space_length back r2). cbn. lia. }
  destruct r2 as [|c r3]; [discriminate|].
  destruct (if back then space3 c b a else space3 a b c); [|discriminate].
  pose proof (drop_space_length back r3). cbn. lia.
Qed.

Lemma drop_space_same back l :
  length (drop_space back l) = length l -> drop_space back l = l.
Proof.
  intros Hlen. destruct (drop_space_suffix back l) as [pre Hpre].
  destruct pre as [|x pre]; [symmetry; exact Hpre|].
  exfalso. apply (f_equal (@length N)) in Hpre.
  rewrite length_app in Hpre. cbn in Hpre. lia.
Qed.

Lemma codes_length s : length (codes s) = String.length s.
Proof.
  unfold codes. rewrite length_map.
  induction s as [|a s IH]; cbn; [reflexivity|]. now rewrite IH.
Qed.

Lemma of_codes_length l : String.length (of_codes l) = length l.
Proof.
  unfold of_codes. induction l as [|a l IH]; cbn; [reflexivity|]. now rewrite IH.
Qed.

Lemma strip_length s : String.length (strip s) <= String.length s.
Proof.
  unfold strip, rstrip_codes, lstrip_codes.
  rewrite of_codes_length, length_rev, <- codes_length.
  pose proof (drop_space_length true (rev (drop_space false (codes s)))) as H1.
  pose proof (drop_space_length false (codes s)) as H2.
  rewrite length_rev in H1. lia.
Qed.

(** Stripping a text that has whitespace at an end makes it shorter. *)
Lemma strip_shorter s :
  outer_whitespace s = true -> String.length (strip s) < String.length s.
Proof.
  unfold outer_whitespace, strip, rstrip_codes, lstrip_codes. intros H.
  rewrite of_codes_length, length_rev, <- codes_length.
  pose proof (drop_space_length true (rev (drop_space false (codes s)))) as H1.
  pose proof (drop_space_length false (codes s)) as H2.
  rewrite length_rev in H1.
  apply orb_true_iff in H. destruct H as [H|H]; apply bool_decide_eq_true in H.
  - pose proof (drop_space_shorter false _ H). lia.
  - destruct (Nat.eq_dec (length (drop_space false (codes s))) (length (codes s))) as [E|E];
      [|lia].
    apply drop_space_same in E. rewrite E in *.
    pose proof (drop_space_shorter true _ H) as H3. rewrite length_rev in H3. lia.
Qed.

Lemma strip_changes s : outer_whitespace s = true -> strip s <> s.
Proof.
  intros H E. apply strip_shorter in H. rewrite E in H. lia.
Qed.

Lemma decode_text b s : decode b = Some s -> s = string_of_list_byte b.
Proof. unfold decode. destruct (utf8_valid _); congruence. Qed.

Lemma encode_decode b s : decode b = Some s -> encode s = b.
Proof.
  intros H. apply decode_text in H. subst s. unfold encode.
  apply list_byte_of_string_of_list_byte.
Qed.

(** *** Paths *)

Lemma parents_config_path : parents config_path = ["/free5gc"; CONFIG_DIR].
Proof. reflexivity. Qed.

Lemma make_dir_lookup_ne d p fs : d <> p -> make_dir d fs !! p = fs !! p.
Proof.
  intros Hne. unfold make_dir. destruct (fs !! d); [reflexivity|].
  now apply lookup_insert_ne.
Qed.

Lemma make_dir_is_Some d p fs : is_Some (fs !! p) -> is_Some (make_dir d fs !! p).
Proof.
  intros Hp. unfold make_dir. destruct (fs !! d) eqn:Hd; [exact Hp|].
  destruct (decide (d = p)) as [->|Hne].
  - rewrite lookup_insert_eq. eauto.
  - now rewrite lookup_insert_ne.
Qed.

(** Writing the configuration file leaves every path outside
    [/free5gc] as it was. *)
Lemma write_config_lookup_other content p fs :
  p <> config_path -> p <> "/free5gc" -> p <> CONFIG_DIR ->
  write_file config_path content true fs !! p = fs !! p.
Proof.
  intros H1 H2 H3. unfold write_file.
  rewrite lookup_insert_ne by congruence.
  rewrite parents_config_path. cbn [foldr].
  rewrite !make_dir_lookup_ne by congruence. reflexivity.
Qed.

Lemma write_config_lookup content make_dirs fs :
  write_file config_path content make_dirs fs !! config_path = Some (File content).
Proof. unfold write_file. apply lookup_insert_eq. Qed.

Lemma write_config_storage content fs :
  is_Some (fs !! CONFIG_DIR) ->
  is_Some (write_file config_path content true fs !! CONFIG_DIR).
Proof.
  intros H. unfold write_file. rewrite lookup_insert_ne by discriminate.
  rewrite parents_config_path. cbn [foldr].
  now apply make_dir_is_Some, make_dir_is_Some.
Qed.

(** *** Runs of the helpers *)

Lemma prepend_nil {A} (o : outcome A) : prepend [] o = o.
Proof. destruct o; reflexivity. Qed.

Lemma prepend_prepend {A} made made' (o : outcome A) :
  prepend made (prepend made' o) = prepend (made ++ made') o.
Proof. destruct o; cbn. now rewrite app_assoc. Qed.

Lemma res_prepend {A} made (o : outcome A) : res (prepend made o) = res o.
Proof. destruct o; reflexivity. Qed.

Lemma final_prepend {A} made (o : outcome A) : final (prepend made o) = final o.
Proof. destruct o; reflexivity. Qed.

Lemma calls_prepend {A} made (o : outcome A) : calls (prepend made o) = made ++ calls o.
Proof. destruct o; reflexivity. Qed.

Lemma bind_run {A B} (m : M A) (f : A -> M B) w a w1 made :
  m w = mkOutcome (Ok a) w1 made -> bind m f w = prepend made (f a w1).
Proof. intros H. unfold bind. now rewrite H. Qed.

Lemma bind_raise {A B} (m : M A) (f : A -> M B) w e w1 made :
  m w = mkOutcome (Raise e) w1 made -> bind m f w = mkOutcome (Raise e) w1 made.
Proof. intros H. unfold bind. now rewrite H. Qed.

Lemma bind_observe {A B} c (g : world -> A) (f : A -> M B) w :
  bind (observe c g) f w = prepend [c] (f (g w) w).
Proof. reflexivity. Qed.

Lemma bind_act {B} c (g : world -> world) (f : unit -> M B) w :
  bind (act c g) f w = prepend [c] (f tt (g w)).
Proof. reflexivity. Qed.

Lemma bind_ret {A B} (a : A) (f : A -> M B) w : bind (ret a) f w = f a w.
Proof. unfold bind, ret. apply prepend_nil. Qed.

Lemma bind_bind {A B C} (m : M A) (f : A -> M B) (g : B -> M C) w :
  bind (bind m f) g w = bind m (fun a => bind (f a) g) w.
Proof.
  unfold bind. destruct (m w) as [[a|e] w1 made]; [|reflexivity].
  destruct (f a w1) as [[b|e] w2 made']; cbn; [|reflexivity].
  destruct (g b w2); cbn. now rewrite app_assoc.
Qed.

Lemma outcome_eta {A} (o : outcome A) : o = mkOutcome (res o) (final o) (calls o).
Proof. destruct o; reflexivity. Qed.

Lemma get_pod_ip_run w :
  _get_pod_ip w
  = mkOutcome (pod_ip w) w [CheckOutput ["unit-get"; "private-address"]].
Proof.
  unfold pod_ip, _get_pod_ip, bind, check_output, observe, or_raise, ret, raise. cbn.
  destruct (private_address w); cbn; [reflexivity|].
  destruct (decode _); cbn; [|reflexivity].
  destruct (IPv4Address _); reflexivity.
Qed.

Lemma pebble_layer_run w ip :
  pod_ip w = Ok ip ->
  _pebble_layer w
  = mkOutcome (Ok (desired_layer ip)) w [CheckOutput ["unit-get"; "private-address"]].
Proof.
  intros Hip. unfold _pebble_layer, _ausf_environment_variables, bind.
  rewrite get_pod_ip_run, Hip. reflexivity.
Qed.

Lemma pebble_layer_raise w e :
  pod_ip w = Raise e ->
  _pebble_layer w
  = mkOutcome (Raise e) w [CheckOutput ["unit-get"; "private-address"]].
Proof.
  intros Hip. unfold _pebble_layer, _ausf_environment_variables, bind.
  rewrite get_pod_ip_run, Hip. reflexivity.
Qed.

(** The supervision step, when the service is left alone ... *)
Lemma configure_service_idle w ip force_restart :
  pod_ip w = Ok ip ->
  bool_decide (plan_services w ≠ services (desired_layer ip)) || force_restart = false ->
  _configure_ausf_service force_restart w
  = mkOutcome (Ok tt) w [CheckOutput ["unit-get"; "private-address"]; GetPlan].
Proof.
  intros Hip Hc. unfold _configure_ausf_service, bind.
  rewrite (pebble_layer_run w ip Hip). cbn [res final calls]. unfold get_plan, observe. cbn [res final calls services]. rewrite Hc. reflexivity.
Qed.

(** ... and when it is given the new layer and restarted. *)
Lemma configure_service_restart w ip force_restart :
  pod_ip w = Ok ip ->
  bool_decide (plan_services w ≠ services (desired_layer ip)) || force_restart = true ->
  _configure_ausf_service force_restart w
  = mkOutcome (Ok tt)
      (set_plan (fun p => services (desired_layer ip) ∪ p) w)
      [CheckOutput ["unit-get"; "private-address"]; GetPlan;
       AddLayer _container_name (desired_layer ip) true;
       Restart _service_name; Log INFO "Restarted container ausf"].
Proof.
  intros Hip Hc. unfold _configure_ausf_service, bind.
  rewrite (pebble_layer_run w ip Hip). cbn [res final calls]. unfold get_plan, observe. cbn [res final calls services]. rewrite Hc. reflexivity.
Qed.

(** *** Pushing files *)

Lemma push_make_dirs path source w :
  push path source true w
  = mkOutcome (Ok tt) (set_files (write_file path source true) w)
      [Push path source true].
Proof. reflexivity. Qed.

Lemma push_run path source w :
  parent_exists path (files w) = true ->
  push path source false w
  = mkOutcome (Ok tt) (set_files (write_file path source false) w)
      [Push path source false].
Proof. intros H. unfold push. now rewrite H. Qed.

Lemma push_no_parent path source w :
  parent_exists path (files w) = false ->
  push path source false w
  = mkOutcome (Raise (PathError path)) w [Push path source false].
Proof. intros H. unfold push. now rewrite H. Qed.

(** An entry of the store makes the directories above it exist. *)
Lemma directory_exists_below d path x (fs : gmap string node) :
  fs !! path = Some x -> In d (parents path) -> directory_exists d fs = true.
Proof.
  intros Hx Hd. unfold directory_exists. apply orb_true_iff. right.
  apply existsb_exists. exists (path, x). split.
  - apply list_elem_of_In, elem_of_map_to_list. exact Hx.
  - apply existsb_exists. exists d. split; [exact Hd|apply String.eqb_refl].
Qed.

Lemma parent_exists_private_key fs :
  parent_exists private_key_path fs = directory_exists CERTS_DIR_PATH fs.
Proof. reflexivity. Qed.

Lemma parent_exists_csr fs :
  parent_exists csr_path fs = directory_exists CERTS_DIR_PATH fs.
Proof. reflexivity. Qed.

Lemma parent_exists_certificate fs :
  parent_exists certificate_path fs = directory_exists CERTS_DIR_PATH fs.
Proof. reflexivity. Qed.

(** A stored identity artifact shows that the certificates directory
    exists. *)
Lemma certs_directory_of_artifact path x (fs : gmap string node) :
  path = private_key_path \/ path = csr_path \/ path = certificate_path ->
  fs !! path = Some x -> directory_exists CERTS_DIR_PATH fs = true.
Proof.
  intros Hp Hx. apply (directory_exists_below _ path x); [exact Hx|].
  destruct Hp as [-> | [-> | ->]]; vm_compute; auto.
Qed.


Lemma apply_config_unchanged w ip :
  pod_ip w = Ok ip ->
  files w !! config_path = Some (File (desired_config ip w)) ->
  _apply_ausf_config w = mkOutcome (Ok false) w (reconcile_prefix ip w).
Proof.
  intros Hip Hf.
  unfold _apply_ausf_config, _render_config_file, _config_file_content_matches,
    _certificate_is_stored, try_except_PathError, bind.
  rewrite get_pod_ip_run, Hip.
  unfold read_nrf_url, exists_, render, pull, observe, ret.
  cbn [res final calls]. rewrite Hf. cbn [res final calls].
  fold (stored certificate_path w). fold (desired_bindings ip w).
  fold (desired_config ip w). rewrite String.eqb_refl. reflexivity.
Qed.

Lemma apply_config_changed w ip :
  pod_ip w = Ok ip ->
  files w !! config_path <> Some (File (desired_config ip w)) ->
  _apply_ausf_config w
  = mkOutcome (Ok true)
      (set_files (write_file config_path (desired_config ip w) true) w)
      (reconcile_prefix ip w
       ++ [Push config_path (desired_config ip w) true;
           Log INFO "Pushed ausfcfg.conf config file"]).
Proof.
  intros Hip Hf.
  unfold _apply_ausf_config, _render_config_file, _config_file_content_matches,
    _certificate_is_stored, _push_config_file, try_except_PathError, bind.
  rewrite get_pod_ip_run, Hip.
  unfold read_nrf_url, exists_, render, pull, push, logger, act, observe, ret.
  cbn [res final calls].
  fold (stored certificate_path w). fold (desired_bindings ip w).
  fold (desired_config ip w).
  destruct (files w !! config_path) as [[|existing]|] eqn:Hc; cbn [res final calls];
    try reflexivity.
  destruct (String.eqb_spec existing (desired_config ip w)) as [->|Hne];
    [congruence|reflexivity].
Qed.

Lemma apply_config_raise w e :
  pod_ip w = Raise e ->
  _apply_ausf_config w
  = mkOutcome (Raise e) w [CheckOutput ["unit-get"; "private-address"]].
Proof.
  intros Hip. unfold _apply_ausf_config, bind. rewrite get_pod_ip_run, Hip. reflexivity.
Qed.

(** *** Runs of [_configure_ausf] *)

Ltac run_observe :=
  rewrite ?bind_bind; rewrite bind_observe; rewrite ?bind_ret.

Ltac run_gate_check H :=
  run_observe; rewrite H; cbn [negb].

Lemma configure_unreachable w :
  container_reachable w = false ->
  _configure_ausf w
  = mkOutcome (Ok tt) (waiting "Waiting for container to start" w)
      [CanConnect; SetStatus (WaitingStatus "Waiting for container to start"); Defer].
Proof.
  unfold container_reachable. intros H1.
  unfold _configure_ausf, can_connect. run_gate_check H1. reflexivity.
Qed.

Lemma configure_no_relation w :
  container_reachable w = true -> relation_exists w = false ->
  _configure_ausf w
  = mkOutcome (Ok tt)
      (set_unit_status (BlockedStatus "Waiting for fiveg_nrf relation") w)
      [CanConnect; GetRelation "fiveg_nrf";
       SetStatus (BlockedStatus "Waiting for fiveg_nrf relation")].
Proof.
  unfold container_reachable, relation_exists. intros H1 H2.
  unfold _configure_ausf, can_connect. run_gate_check H1.
  unfold _relation_created, get_relation. run_gate_check H2. reflexivity.
Qed.

Lemma configure_no_data w :
  container_reachable w = true -> relation_exists w = true ->
  data_available w = false ->
  _configure_ausf w
  = mkOutcome (Ok tt) (waiting "Waiting for NRF data to be available" w)
      [CanConnect; GetRelation "fiveg_nrf"; ReadNrfUrl;
       SetStatus (WaitingStatus "Waiting for NRF data to be available"); Defer].
Proof.
  unfold container_reachable, relation_exists, data_available. intros H1 H2 H3.
  unfold _configure_ausf, can_connect. run_gate_check H1.
  unfold _relation_created, get_relation. run_gate_check H2.
  unfold _nrf_data_is_available, read_nrf_url. run_gate_check H3. reflexivity.
Qed.

Lemma configure_no_storage w :
  container_reachable w = true -> relation_exists w = true ->
  data_available w = true -> storage_attached w = false ->
  _configure_ausf w
  = mkOutcome (Ok tt) (waiting "Waiting for storage to be attached" w)
      [CanConnect; GetRelation "fiveg_nrf"; ReadNrfUrl; Exists CONFIG_DIR;
       SetStatus (WaitingStatus "Waiting for storage to be attached"); Defer].
Proof.
  unfold container_reachable, relation_exists, data_available, storage_attached.
  intros H1 H2 H3 H4.
  unfold _configure_ausf, can_connect. run_gate_check H1.
  unfold _relation_created, get_relation. run_gate_check H2.
  unfold _nrf_data_is_available, read_nrf_url. run_gate_check H3.
  unfold exists_. run_gate_check H4. reflexivity.
Qed.

(** The pass once the first four checks hold. *)
Lemma configure_to_address w :
  container_reachable w = true -> relation_exists w = true ->
  data_available w = true -> storage_attached w = true ->
  _configure_ausf w
  = prepend [CanConnect; GetRelation "fiveg_nrf"; ReadNrfUrl; Exists CONFIG_DIR]
      (bind _get_pod_ip
         (fun pod_ip =>
            if negb (truthy pod_ip)
            then bind (set_status
                         (WaitingStatus "Waiting for pod IP address to be available"))
                      (fun _ => defer)
            else bind _apply_ausf_config
                      (fun config_file_changed =>
                         bind (_configure_ausf_service config_file_changed)
                              (fun _ => set_status ActiveStatus))) w).
Proof.
  unfold container_reachable, relation_exists, data_available, storage_attached.
  intros H1 H2 H3 H4.
  unfold _configure_ausf, can_connect. run_gate_check H1.
  unfold _relation_created, get_relation. run_gate_check H2.
  unfold _nrf_data_is_available, read_nrf_url. run_gate_check H3.
  unfold exists_. run_gate_check H4.
  rewrite !prepend_prepend. reflexivity.
Qed.

Lemma configure_no_address w ip :
  container_reachable w = true -> relation_exists w = true ->
  data_available w = true -> storage_attached w = true ->
  pod_ip w = Ok ip -> truthy ip = false ->
  _configure_ausf w
  = mkOutcome (Ok tt) (waiting "Waiting for pod IP address to be available" w)
      (readiness_checks
       ++ [SetStatus (WaitingStatus "Waiting for pod IP address to be available"); Defer]).
Proof.
  intros H1 H2 H3 H4 H5 H6. rewrite (configure_to_address w H1 H2 H3 H4).
  erewrite bind_run by (rewrite get_pod_ip_run, H5; reflexivity).
  rewrite H6. reflexivity.
Qed.

Lemma configure_address_raise w e :
  container_reachable w = true -> relation_exists w = true ->
  data_available w = true -> storage_attached w = true ->
  pod_ip w = Raise e ->
  _configure_ausf w = mkOutcome (Raise e) w readiness_checks.
Proof.
  intros H1 H2 H3 H4 H5. rewrite (configure_to_address w H1 H2 H3 H4).
  erewrite bind_raise by (rewrite get_pod_ip_run, H5; reflexivity).
  reflexivity.
Qed.

(** *** World updates and observations *)

Lemma set_files_id w : set_files (fun fs => fs) w = w.
Proof. destruct w; reflexivity. Qed.

Lemma set_files_ext f g w : f (files w) = g (files w) -> set_files f w = set_files g w.
Proof. intros H. unfold set_files. now rewrite H. Qed.

Lemma pod_ip_private_address w w' :
  private_address w = private_address w' -> pod_ip w = pod_ip w'.
Proof.
  intros H. unfold pod_ip, _get_pod_ip, check_output.
  rewrite !bind_observe, !res_prepend, H.
  destruct (private_address w'); [reflexivity|].
  unfold or_raise. destruct (decode _); [|reflexivity].
  rewrite !bind_ret. destruct (IPv4Address _); reflexivity.
Qed.

Lemma pod_ip_set_files f w : pod_ip (set_files f w) = pod_ip w.
Proof. now apply pod_ip_private_address. Qed.

Lemma pod_ip_set_plan f w : pod_ip (set_plan f w) = pod_ip w.
Proof. now apply pod_ip_private_address. Qed.

Lemma pod_ip_reconciled ip w : pod_ip (reconciled ip w) = pod_ip w.
Proof.
  unfold reconciled. destruct (config_changed ip w); [apply pod_ip_set_files|reflexivity].
Qed.

Lemma plan_reconciled ip w : plan_services (reconciled ip w) = plan_services w.
Proof. unfold reconciled. destruct (config_changed ip w); reflexivity. Qed.

Lemma spec_changed_reconciled ip w : spec_changed ip (reconciled ip w) = spec_changed ip w.
Proof. unfold spec_changed. now rewrite plan_reconciled. Qed.

(** *** The two steps of a pass that proceeds *)

Lemma apply_config_run w ip :
  pod_ip w = Ok ip ->
  _apply_ausf_config w
  = mkOutcome (Ok (config_changed ip w)) (reconciled ip w) (reconcile_calls ip w).
Proof.
  intros Hip. unfold config_changed, reconciled, reconcile_calls, config_changed.
  destruct (decide (files w !! config_path = Some (File (desired_config ip w)))) as [E|E].
  - rewrite (bool_decide_eq_true_2 _ E). cbn [negb]. rewrite app_nil_r.
    now apply apply_config_unchanged.
  - rewrite (bool_decide_eq_false_2 _ E). cbn [negb].
    now apply apply_config_changed.
Qed.

Lemma configure_service_run w ip force_restart :
  pod_ip w = Ok ip ->
  _configure_ausf_service force_restart w
  = mkOutcome (Ok tt) (supervised ip force_restart w) (supervise_calls ip force_restart w).
Proof.
  intros Hip. unfold supervised, supervise_calls, spec_changed.
  destruct (bool_decide (plan_services w ≠ services (desired_layer ip)) || force_restart)
    eqn:Hc.
  - now apply (configure_service_restart w ip).
  - cbn [app]. now apply (configure_service_idle w ip).
Qed.

(** A pass whose five checks hold. *)
Lemma configure_proceeds w ip :
  ready w ip ->
  _configure_ausf w
  = mkOutcome (Ok tt)
      (set_unit_status ActiveStatus
         (supervised ip (config_changed ip w) (reconciled ip w)))
      (readiness_checks ++ reconcile_calls ip w
       ++ supervise_calls ip (config_changed ip w) (reconciled ip w)
       ++ [SetStatus ActiveStatus]).
Proof.
  intros (H1 & H2 & H3 & H4 & H5 & H6). rewrite (configure_to_address w H1 H2 H3 H4).
  erewrite bind_run by (rewrite get_pod_ip_run, H5; reflexivity).
  rewrite H6. cbn [negb].
  erewrite bind_run by (apply (apply_config_run w ip H5)).
  erewrite bind_run
    by (apply (configure_service_run (reconciled ip w) ip); now rewrite pod_ip_reconciled).
  unfold set_status, act. cbn [prepend]. f_equal.
Qed.

(** A pass that stops at a check. *)
Lemma configure_stops c w :
  first_to_fail c w = true ->
  _configure_ausf w
  = mkOutcome (Ok tt) (after_verdict (verdict c) w)
      (firstn (S (position c)) readiness_checks ++ verdict_calls (verdict c)).
Proof.
  unfold first_to_fail. intros H. apply andb_true_iff in H. destruct H as [Hc Hb].
  destruct c; cbn [position firstn checks_in_order forallb fails] in Hc, Hb;
    repeat match goal with
           | H : _ && _ = true |- _ => apply andb_true_iff in H; destruct H
           | H : negb (negb _) = true |- _ => rewrite negb_involutive in H
           | H : negb _ = true |- _ => apply negb_true_iff in H
           end.
  - now apply configure_unreachable.
  - now apply configure_no_relation.
  - now apply configure_no_data.
  - now apply configure_no_storage.
  - unfold address_unresolved in Hc.
    destruct (pod_ip w) as [ip|e] eqn:Hip; [|discriminate].
    apply negb_true_iff in Hc. now apply (configure_no_address w ip).
Qed.

(** *** Properties of the pass *)

Lemma quiet_verdict_calls g : forallb quiet (verdict_calls g) = true.
Proof. destruct g; reflexivity. Qed.

Lemma quiet_checks n : forallb quiet (firstn n readiness_checks) = true.
Proof. do 6 (destruct n as [|n]; [reflexivity|]). reflexivity. Qed.

(** C3. The gate of [_configure_ausf] asks its five readiness questions in
    the order container, relation, data, storage, address, and stops at
    the first one that fails: a pass that stops at check [c] has made
    exactly the checks up to [c] and then recorded the verdict of [c].
    When the container is unreachable the only check made is the first,
    the verdict is to wait and defer, whatever the other facts are; a pass
    whose checks all hold has made the five of them, in order, first. *)
Theorem gate_order_short_circuit (w : world) :
  (forall c, first_to_fail c w = true ->
     res (_configure_ausf w) = Ok tt
     /\ calls (_configure_ausf w)
        = firstn (S (position c)) readiness_checks ++ verdict_calls (verdict c)
     /\ final (_configure_ausf w) = after_verdict (verdict c) w)
  /\ (container_reachable w = false ->
        calls (_configure_ausf w)
        = [CanConnect; SetStatus (WaitingStatus "Waiting for container to start"); Defer]
        /\ unit_status (final (_configure_ausf w))
           = WaitingStatus "Waiting for container to start"
        /\ deferred (final (_configure_ausf w)) = true)
  /\ (forall ip, ready w ip ->
        firstn 5 (calls (_configure_ausf w)) = readiness_checks).
Proof.
  split; [|split].
  - intros c Hc. rewrite (configure_stops c w Hc). auto.
  - intros Hr. rewrite (configure_unreachable w Hr). auto.
  - intros ip Hr. rewrite (configure_proceeds w ip Hr). reflexivity.
Qed.

(** C4. A pass stopped by a transient condition (container, data, storage
    or address) leaves a waiting status and defers the event; a pass
    stopped by the missing relation leaves a blocked status and does not
    defer.  Either way no file is written, the plan is not touched and
    the service is not restarted. *)
Theorem transient_defers_missing_relation_blocks (c : check) (w : world) :
  first_to_fail c w = true ->
  let o := _configure_ausf w in
  (transient c = true ->
     (exists reason, unit_status (final o) = WaitingStatus reason)
     /\ deferred (final o) = true /\ In Defer (calls o))
  /\ (transient c = false ->
        (exists reason, unit_status (final o) = BlockedStatus reason)
        /\ deferred (final o) = deferred w /\ ~ In Defer (calls o))
  /\ files (final o) = files w
  /\ plan_services (final o) = plan_services w
  /\ forallb quiet (calls o) = true.
Proof.
  intros Hc o. subst o. rewrite (configure_stops c w Hc). cbn [res final calls].
  repeat split.
  - destruct c; try discriminate; eexists; reflexivity.
  - destruct c; try discriminate; reflexivity.
  - destruct c; try discriminate; cbn; auto 10.
  - destruct c; try discriminate. eexists; reflexivity.
  - destruct c; try discriminate. reflexivity.
  - destruct c; try discriminate. cbn. intros Hin.
    repeat (destruct Hin as [Hin|Hin]; [discriminate|]). exact Hin.
  - destruct c; reflexivity.
  - destruct c; reflexivity.
  - rewrite forallb_app, quiet_checks, quiet_verdict_calls. reflexivity.
Qed.

Lemma in_supervise_calls c ip force w :
  In c (supervise_calls ip force w) ->
  c = CheckOutput ["unit-get"; "private-address"] \/ c = GetPlan
  \/ (spec_changed ip w || force = true
      /\ (c = AddLayer _container_name (desired_layer ip) true
          \/ c = Restart _service_name
          \/ c = Log INFO "Restarted container ausf")).
Proof.
  unfold supervise_calls. intros H. apply in_app_or in H. destruct H as [H|H].
  - cbn in H. intuition.
  - destruct (spec_changed ip w || force); cbn in H; intuition.
Qed.

Lemma in_reconcile_calls c ip w :
  In c (reconcile_calls ip w) ->
  In c (reconcile_prefix ip w)
  \/ (config_changed ip w = true
      /\ (c = Push config_path (desired_config ip w) true
          \/ c = Log INFO "Pushed ausfcfg.conf config file")).
Proof.
  unfold reconcile_calls. intros H. apply in_app_or in H. destruct H as [H|H]; [auto|].
  destruct (config_changed ip w); cbn in H; intuition.
Qed.

(** Which calls of a proceeding pass satisfy a test that the checks, the
    reconciliation and the final status all fail. *)
Lemma proceeds_service_calls (p : call -> bool) w ip :
  ready w ip ->
  forallb (fun c => negb (p c)) readiness_checks = true ->
  forallb (fun c => negb (p c)) (reconcile_calls ip w) = true ->
  p (SetStatus ActiveStatus) = false ->
  forall c, p c = true ->
    (In c (calls (_configure_ausf w))
     <-> In c (supervise_calls ip (config_changed ip w) (reconciled ip w))).
Proof.
  intros Hr H1 H2 H3 c Hc. rewrite (configure_proceeds w ip Hr). cbn [calls].
  rewrite forallb_forall in H1, H2.
  split.
  - intros H. apply in_app_or in H. destruct H as [H|H].
    { apply H1 in H. rewrite Hc in H. discriminate. }
    apply in_app_or in H. destruct H as [H|H].
    { apply H2 in H. rewrite Hc in H. discriminate. }
    apply in_app_or in H. destruct H as [H|H]; [exact H|].
    destruct H as [<-|[]]. congruence.
  - intros H. apply in_or_app. right. apply in_or_app. right.
    apply in_or_app. now left.
Qed.

Lemma reconcile_calls_no (p : call -> bool) ip w :
  p (CheckOutput ["unit-get"; "private-address"]) = false ->
  p ReadNrfUrl = false -> p (Exists certificate_path) = false ->
  (forall n b, p (Render n b) = false) -> (forall q, p (Pull q) = false) ->
  (forall q s m, p (Push q s m) = false) -> (forall l s, p (Log l s) = false) ->
  forallb (fun c => negb (p c)) (reconcile_calls ip w) = true.
Proof.
  intros H1 H2 H3 H4 H5 H6 H7. unfold reconcile_calls, reconcile_prefix.
  rewrite forallb_app. cbn [forallb]. rewrite H1, H2, H3, H4, H5. cbn.
  destruct (config_changed ip w); cbn; [|reflexivity]. now rewrite H6, H7.
Qed.

(** C1. In a pass that reaches the service step, the service is restarted
    exactly when the plan differs from the computed layer or the
    reconciliation of the configuration file reported a change. *)
Theorem restart_iff_spec_or_config_changed (w : world) (ip : option str) :
  ready w ip ->
  exists config_file_changed pebble_layer,
    res (_apply_ausf_config w) = Ok config_file_changed
    /\ res (_pebble_layer (final (_apply_ausf_config w))) = Ok pebble_layer
    /\ (In (Restart _service_name) (calls (_configure_ausf w))
        <-> plan_services w ≠ services pebble_layer \/ config_file_changed = true)
    /\ (forall c, is_restart c = true -> In c (calls (_configure_ausf w)) ->
          c = Restart _service_name)
    /\ length (List.filter is_restart (calls (_configure_ausf w))) <= 1.
Proof.
  intros Hr. pose proof Hr as (_ & _ & _ & _ & Hip & _).
  exists (config_changed ip w), (desired_layer ip).
  rewrite (apply_config_run w ip Hip). cbn [res final].
  rewrite (pebble_layer_run (reconciled ip w) ip) by now rewrite pod_ip_reconciled.
  split; [reflexivity|]. split; [reflexivity|].
  assert (Hsvc : forall c, is_restart c = true ->
            (In c (calls (_configure_ausf w))
             <-> In c (supervise_calls ip (config_changed ip w) (reconciled ip w)))).
  { apply (proceeds_service_calls is_restart w ip Hr); try reflexivity.
    apply reconcile_calls_no; reflexivity. }
  split; [|split].
  - rewrite (Hsvc (Restart _service_name) eq_refl).
    unfold supervise_calls. rewrite spec_changed_reconciled.
    unfold spec_changed.
    destruct (decide (plan_services w ≠ services (desired_layer ip))) as [E|E].
    + rewrite (bool_decide_eq_true_2 _ E). cbn. intuition.
    + rewrite (bool_decide_eq_false_2 _ E). cbn [orb].
      destruct (config_changed ip w); cbn; [intuition|].
      split; [intros [H|[H|[]]]; discriminate|]. intros [H|H]; [contradiction|discriminate].
  - intros c Hc Hin. apply (Hsvc c Hc) in Hin. apply in_supervise_calls in Hin.
    destruct Hin as [-> | [-> | [_ [-> | [-> | ->]]]]]; try discriminate. reflexivity.
  - rewrite (configure_proceeds w ip Hr). cbn [calls].
    rewrite !List.filter_app, !length_app.
    unfold reconcile_calls, supervise_calls, reconcile_prefix.
    rewrite ?List.filter_app, ?length_app.
    destruct (config_changed ip w), (spec_changed ip (reconciled ip _) || _); cbn; lia.
Qed.

(** C6 (amended). In a pass that reaches the service step the computed
    layer is handed to Pebble, combined under the container's name so
    that it replaces the service entry of that name, exactly when the
    service is restarted, that is when the plan differs from the layer or
    the configuration file changed; otherwise Pebble's plan is not
    touched and no layer is added. *)
Theorem layer_applied_iff_restart (w : world) (ip : option str) :
  ready w ip ->
  exists config_file_changed pebble_layer,
    res (_apply_ausf_config w) = Ok config_file_changed
    /\ res (_pebble_layer (final (_apply_ausf_config w))) = Ok pebble_layer
    /\ let o := _configure_ausf w in
       let wanted := plan_services w ≠ services pebble_layer \/ config_file_changed = true in
       (In (AddLayer _container_name pebble_layer true) (calls o) <-> wanted)
       /\ (In (AddLayer _container_name pebble_layer true) (calls o)
           <-> In (Restart _service_name) (calls o))
       /\ (wanted ->
           plan_services (final o) = services pebble_layer ∪ plan_services w
           /\ plan_services (final o) !! _service_name
              = services pebble_layer !! _service_name)
       /\ (~ wanted ->
           plan_services (final o) = plan_services w
           /\ forallb (fun c => negb (is_add_layer c)) (calls o) = true).
Proof.
  intros Hr. pose proof Hr as (_ & _ & _ & _ & Hip & _).
  exists (config_changed ip w), (desired_layer ip).
  rewrite (apply_config_run w ip Hip). cbn [res final].
  rewrite (pebble_layer_run (reconciled ip w) ip) by now rewrite pod_ip_reconciled.
  split; [reflexivity|]. split; [reflexivity|]. cbn zeta.
  assert (Hadd : forall c, is_add_layer c = true ->
            (In c (calls (_configure_ausf w))
             <-> In c (supervise_calls ip (config_changed ip w) (reconciled ip w)))).
  { apply (proceeds_service_calls is_add_layer w ip Hr); try reflexivity.
    apply reconcile_calls_no; reflexivity. }
  assert (Hres : forall c, is_restart c = true ->
            (In c (calls (_configure_ausf w))
             <-> In c (supervise_calls ip (config_changed ip w) (reconciled ip w)))).
  { apply (proceeds_service_calls is_restart w ip Hr); try reflexivity.
    apply reconcile_calls_no; reflexivity. }
  assert (Hwanted : plan_services w ≠ services (desired_layer ip)
                    \/ config_changed ip w = true
                    <-> spec_changed ip (reconciled ip w) || config_changed ip w = true).
  { rewrite spec_changed_reconciled. unfold spec_changed.
    rewrite orb_true_iff, bool_decide_eq_true. reflexivity. }
  rewrite (Hadd (AddLayer _container_name (desired_layer ip) true) eq_refl),
    (Hres (Restart _service_name) eq_refl), Hwanted.
  rewrite (configure_proceeds w ip Hr). cbn [final calls].
  unfold supervise_calls, supervised.
  destruct (spec_changed ip (reconciled ip w) || config_changed ip w) eqn:Hc.
  - split; [|split; [|split]].
    + split; [reflexivity|]. intros _. cbn. auto.
    + split; intros _; cbn; auto 10.
    + intros _. cbn [plan_services set_unit_status set_plan]. split.
      * now rewrite plan_reconciled.
      * apply lookup_union_Some_l. reflexivity.
    + intros Hn. now contradict Hn.
  - split; [|split; [|split]].
    + split; [|discriminate]. cbn. intros [H|[H|[]]]; discriminate.
    + split; cbn; intros [H|[H|[]]]; discriminate.
    + discriminate.
    + intros _. cbn [plan_services set_unit_status]. split; [apply plan_reconciled|].
      rewrite !forallb_app. unfold reconcile_calls, reconcile_prefix.
      rewrite forallb_app. destruct (config_changed ip w); reflexivity.
Qed.

(** *** Reconciliation of the configuration file *)

Lemma make_dir_self d fs : is_Some (make_dir d fs !! d).
Proof.
  unfold make_dir. destruct (fs !! d) eqn:E; [rewrite E; eauto|].
  rewrite lookup_insert_eq. eauto.
Qed.

Lemma make_dirs_present ds fs d :
  In d ds -> is_Some (foldr make_dir fs ds !! d).
Proof.
  induction ds as [|x ds IH]; [intros []|]. cbn [foldr]. intros [->|Hin].
  - apply make_dir_self.
  - apply make_dir_is_Some. auto.
Qed.

Lemma write_file_parents path source fs d :
  In d (parents path) -> is_Some (write_file path source true fs !! d).
Proof.
  intros Hin. unfold write_file. destruct (decide (path = d)) as [->|Hne].
  - rewrite lookup_insert_eq. eauto.
  - rewrite lookup_insert_ne by exact Hne. now apply make_dirs_present.
Qed.

Lemma stored_certificate_reconciled ip w :
  stored certificate_path (reconciled ip w) = stored certificate_path w.
Proof.
  unfold reconciled. destruct (config_changed ip w); [|reflexivity].
  unfold stored, set_files. cbn [files].
  rewrite write_config_lookup_other by discriminate. reflexivity.
Qed.

Lemma desired_config_reconciled ip w :
  desired_config ip (reconciled ip w) = desired_config ip w.
Proof.
  unfold desired_config, desired_bindings. rewrite stored_certificate_reconciled.
  unfold reconciled. destruct (config_changed ip w); reflexivity.
Qed.

(** After reconciliation the stored file is the rendered one. *)
Lemma config_changed_reconciled ip w : config_changed ip (reconciled ip w) = false.
Proof.
  unfold config_changed at 1. rewrite desired_config_reconciled.
  apply negb_false_iff, bool_decide_eq_true.
  unfold reconciled, config_changed.
  destruct (decide (files w !! config_path = Some (File (desired_config ip w)))) as [E|E].
  - rewrite (bool_decide_eq_true_2 _ E). exact E.
  - rewrite (bool_decide_eq_false_2 _ E). cbn [negb files set_files].
    apply write_config_lookup.
Qed.

(** C7. [_apply_ausf_config] never fails on a missing file; it answers
    [True] exactly when the stored configuration file is not the rendered
    text (a missing file included), and then, and only then, pushes the
    rendered text with [make_dirs=True], after which the file holds that
    text and the directories above it exist.  When it answers [False]
    nothing changes.  Run again on the world it leaves, it answers
    [False] and pushes nothing. *)
Theorem config_written_iff_differs (w : world) (ip : option str) :
  pod_ip w = Ok ip ->
  let content := desired_config ip w in
  let o := _apply_ausf_config w in
  (exists changed, res o = Ok changed)
  /\ In (Render CONFIG_TEMPLATE_NAME (desired_bindings ip w)) (calls o)
  /\ (res o = Ok true <-> files w !! config_path <> Some (File content))
  /\ (files w !! config_path = None -> res o = Ok true)
  /\ (In (Push config_path content true) (calls o) <-> res o = Ok true)
  /\ (forall c, is_push c = true -> In c (calls o) -> c = Push config_path content true)
  /\ (res o = Ok true ->
      files (final o) !! config_path = Some (File content)
      /\ forall d, In d (parents config_path) -> is_Some (files (final o) !! d))
  /\ (res o = Ok false -> final o = w)
  /\ (let again := _apply_ausf_config (final o) in
      res again = Ok false /\ final again = final o
      /\ forallb (fun c => negb (is_push c)) (calls again) = true).
Proof.
  intros Hip content o. subst content o.
  rewrite (apply_config_run w ip Hip). cbn [res final calls].
  rewrite (apply_config_run (reconciled ip w) ip) by now rewrite pod_ip_reconciled.
  cbn [res final calls].
  assert (Hiff : config_changed ip w = true
                 <-> files w !! config_path <> Some (File (desired_config ip w))).
  { unfold config_changed. rewrite negb_true_iff, bool_decide_eq_false. reflexivity. }
  split; [|split; [|split; [|split; [|split; [|split; [|split; [|split]]]]]]].
  - eauto.
  - unfold reconcile_calls, reconcile_prefix. cbn. auto 10.
  - split; [intros [= H]; now apply Hiff | intros H; f_equal; now apply Hiff].
  - intros H. f_equal. apply Hiff. rewrite H. discriminate.
  - split.
    + intros H. apply in_reconcile_calls in H. destruct H as [H|[H _]]; [|now f_equal].
      cbn in H. repeat (destruct H as [H|H]; [discriminate|]). destruct H.
    + intros [= H]. unfold reconcile_calls. rewrite H. apply in_or_app. right. now left.
  - intros c Hc H. apply in_reconcile_calls in H. destruct H as [H|[_ [-> | ->]]].
    + cbn in H. repeat (destruct H as [<-|H]; [discriminate|]). destruct H.
    + reflexivity.
    + discriminate.
  - intros [= H]. unfold reconciled. rewrite H. cbn [files set_files]. split.
    + apply write_config_lookup.
    + intros d Hd. now apply write_file_parents.
  - intros [= H]. unfold reconciled. now rewrite H.
  - cbn zeta. split; [|split].
    + now rewrite config_changed_reconciled.
    + unfold reconciled at 1. now rewrite config_changed_reconciled.
    + unfold reconcile_calls. rewrite config_changed_reconciled. reflexivity.
Qed.

(** *** Runs of the container calls *)

Lemma pull_file w path content :
  files w !! path = Some (File content) ->
  pull path w = mkOutcome (Ok content) w [Pull path].
Proof. intros H. unfold pull. now rewrite H. Qed.

Lemma pull_no_file w path :
  (forall content, files w !! path <> Some (File content)) ->
  pull path w = mkOutcome (Raise (PathError path)) w [Pull path].
Proof.
  intros H. unfold pull. destruct (files w !! path) as [[|content]|] eqn:E;
    try reflexivity. now destruct (H content).
Qed.

Lemma stored_true w path : stored path w = true <-> is_Some (files w !! path).
Proof. unfold stored. apply bool_decide_eq_true. Qed.

Lemma stored_false w path : stored path w = false <-> files w !! path = None.
Proof.
  unfold stored. rewrite bool_decide_eq_false. split.
  - intros H. destruct (files w !! path) eqn:E; [|reflexivity]. destruct H. eauto.
  - intros ->. intros [x Hx]. discriminate.
Qed.

(** Every pass falls in one of three cases. *)
Lemma configure_cases w :
  (exists c, first_to_fail c w = true)
  \/ (exists e, _configure_ausf w = mkOutcome (Raise e) w readiness_checks)
  \/ (exists ip, ready w ip).
Proof.
  destruct (container_reachable w) eqn:H1.
  2:{ left. exists ContainerReachable. unfold first_to_fail. cbn. now rewrite H1. }
  destruct (relation_exists w) eqn:H2.
  2:{ left. exists RelationExists. unfold first_to_fail. cbn. now rewrite H1, H2. }
  destruct (data_available w) eqn:H3.
  2:{ left. exists DataAvailable. unfold first_to_fail. cbn. now rewrite H1, H2, H3. }
  destruct (storage_attached w) eqn:H4.
  2:{ left. exists StorageAttached. unfold first_to_fail. cbn.
      now rewrite H1, H2, H3, H4. }
  destruct (pod_ip w) as [ip|e] eqn:H5.
  - destruct (truthy ip) eqn:H6.
    + right. right. exists ip. unfold ready. auto 10.
    + left. exists AddressResolvable. unfold first_to_fail. cbn.
      unfold address_unresolved. now rewrite H1, H2, H3, H4, H5, H6.
  - right. left. exists e. now apply configure_address_raise.
Qed.

Lemma files_after_verdict g w : files (after_verdict g w) = files w.
Proof. destruct g; reflexivity. Qed.

(** A pass changes no file outside [/free5gc]. *)
Lemma configure_files_other w p :
  p <> config_path -> p <> "/free5gc" -> p <> CONFIG_DIR ->
  files (final (_configure_ausf w)) !! p = files w !! p.
Proof.
  intros N1 N2 N3. destruct (configure_cases w) as [[c Hc]|[[e He]|[ip Hr]]].
  - rewrite (configure_stops c w Hc). cbn [final]. now rewrite files_after_verdict.
  - now rewrite He.
  - rewrite (configure_proceeds w ip Hr). cbn [final].
    unfold supervised, reconciled.
    destruct (_ || _), (config_changed ip w); cbn [files set_unit_status set_plan set_files];
      try reflexivity; now apply write_config_lookup_other.
Qed.

(** *** The certificate handlers *)

Lemma available_no_csr event w :
  reachable w = true -> files w !! csr_path = None ->
  _on_certificate_available event w
  = mkOutcome (Ok tt) w
      [CanConnect; Exists csr_path;
       Log WARNING "Certificate is available but no CSR is stored"].
Proof.
  intros H1 H2. unfold _on_certificate_available, can_connect.
  rewrite bind_observe, H1. cbn [negb].
  unfold _csr_is_stored, exists_. rewrite bind_observe.
  rewrite (proj2 (stored_false w csr_path) H2). reflexivity.
Qed.

Lemma available_csr_unreadable event w :
  reachable w = true -> files w !! csr_path = Some Dir ->
  _on_certificate_available event w
  = mkOutcome (Raise (PathError csr_path)) w [CanConnect; Exists csr_path; Pull csr_path].
Proof.
  intros H1 H2. unfold _on_certificate_available, can_connect.
  rewrite bind_observe, H1. cbn [negb].
  unfold _csr_is_stored, exists_. rewrite bind_observe.
  rewrite (proj2 (stored_true w csr_path)) by (rewrite H2; eauto). cbn [negb].
  unfold _get_stored_csr.
  erewrite bind_raise by (apply pull_no_file; intros c; rewrite H2; discriminate).
  reflexivity.
Qed.

Lemma available_other_csr event w stored_csr :
  reachable w = true -> files w !! csr_path = Some (File stored_csr) ->
  certificate_signing_request event <> stored_csr ->
  _on_certificate_available event w
  = mkOutcome (Ok tt) w
      [CanConnect; Exists csr_path; Pull csr_path;
       Log DEBUG "Stored CSR doesn't match one in certificate available event"].
Proof.
  intros H1 H2 H3. unfold _on_certificate_available, can_connect.
  rewrite bind_observe, H1. cbn [negb].
  unfold _csr_is_stored, exists_. rewrite bind_observe.
  rewrite (proj2 (stored_true w csr_path)) by (rewrite H2; eauto). cbn [negb].
  unfold _get_stored_csr.
  erewrite bind_run by (apply pull_file; exact H2).
  apply String.eqb_neq in H3. rewrite H3. reflexivity.
Qed.

Lemma available_same_csr event w :
  reachable w = true ->
  files w !! csr_path = Some (File (certificate_signing_request event)) ->
  _on_certificate_available event w
  = prepend
      [CanConnect; Exists csr_path; Pull csr_path;
       Push certificate_path (available_certificate event) false;
       Log INFO "Pushed certificate pushed to workload"]
      (_configure_ausf
         (set_files (write_file certificate_path (available_certificate event) false) w)).
Proof.
  intros H1 H2. unfold _on_certificate_available, can_connect.
  rewrite bind_observe, H1. cbn [negb].
  unfold _csr_is_stored, exists_. rewrite bind_observe.
  rewrite (proj2 (stored_true w csr_path)) by (rewrite H2; eauto). cbn [negb].
  unfold _get_stored_csr.
  erewrite bind_run by (apply pull_file; exact H2).
  rewrite String.eqb_refl. cbn [negb].
  unfold _store_certificate. rewrite bind_bind.
  erewrite bind_run
    by (apply push_run; rewrite parent_exists_certificate;
        apply (certs_directory_of_artifact csr_path _ _
                 (or_intror (or_introl eq_refl)) H2)).
  unfold logger. rewrite bind_act.
  rewrite !prepend_prepend. reflexivity.
Qed.

(** C2. With the container reachable, a certificate-available event has
    its certificate pushed to the workload exactly when its CSR is the
    text of the stored CSR file; then the certificate file holds it.  On
    any mismatch (no CSR stored included) the world is left as it was:
    nothing is pushed and the event is not deferred. *)
Theorem certificate_stored_iff_csr_matches
    (event : CertificateAvailableEvent) (w : world) :
  reachable w = true ->
  let o := _on_certificate_available event w in
  let matching :=
    files w !! csr_path = Some (File (certificate_signing_request event)) in
  (In (Push certificate_path (available_certificate event) false) (calls o)
   <-> matching)
  /\ (matching ->
      files (final o) !! certificate_path
      = Some (File (available_certificate event)))
  /\ (~ matching ->
      final o = w
      /\ forallb (fun c => negb (is_push c)) (calls o) = true
      /\ ~ In Defer (calls o)).
Proof.
  intros Hr o matching. subst o matching.
  destruct (files w !! csr_path) as [[|stored_csr]|] eqn:Hcsr.
  - rewrite (available_csr_unreadable event w Hr Hcsr). cbn [final calls].
    split; [|split].
    + split; [|discriminate]. cbn. intros [H|[H|[H|[]]]]; discriminate.
    + discriminate.
    + intros _. split; [reflexivity|]. split; [reflexivity|].
      cbn. intros [H|[H|[H|[]]]]; discriminate.
  - destruct (decide (certificate_signing_request event = stored_csr)) as [E|E].
    + subst stored_csr. rewrite (available_same_csr event w Hr Hcsr).
      rewrite calls_prepend, final_prepend. split; [|split].
      * split; [reflexivity|]. intros _. cbn. auto 10.
      * intros _. rewrite configure_files_other by discriminate.
        cbn [files set_files]. unfold write_file. apply lookup_insert_eq.
      * intros Hn. now contradict Hn.
    + rewrite (available_other_csr event w stored_csr Hr Hcsr E). cbn [final calls].
      split; [|split].
      * split; [|intros [= H]; now contradict E].
        cbn. intros [H|[H|[H|[H|[]]]]]; discriminate.
      * intros [= H]. now contradict E.
      * intros _. split; [reflexivity|]. split; [reflexivity|].
        cbn. intros [H|[H|[H|[H|[]]]]]; discriminate.
  - rewrite (available_no_csr event w Hr Hcsr). cbn [final calls].
    split; [|split].
    + split; [|discriminate]. cbn. intros [H|[H|[H|[]]]]; discriminate.
    + discriminate.
    + intros _. split; [reflexivity|]. split; [reflexivity|].
      cbn. intros [H|[H|[H|[]]]]; discriminate.
Qed.

(** [_request_new_certificate] when the key file is there and the
    generated CSR is text. *)
Lemma request_new_certificate_run w key text :
  files w !! private_key_path = Some (File key) ->
  decode (csr_of_draw (draws w) (encode key) CERTIFICATE_COMMON_NAME
            [CERTIFICATE_COMMON_NAME]) = Some text ->
  let csr := csr_of_draw (draws w) (encode key) CERTIFICATE_COMMON_NAME
               [CERTIFICATE_COMMON_NAME] in
  _request_new_certificate w
  = mkOutcome (Ok tt)
      (add_request csr
         (set_files (write_file csr_path (strip text) false) (next_draw w)))
      [Pull private_key_path;
       GenerateCsr (encode key) CERTIFICATE_COMMON_NAME [CERTIFICATE_COMMON_NAME];
       Push csr_path (strip text) false; Log INFO "Pushed CSR to workload";
       RequestCertificateCreation csr].
Proof.
  intros Hkey Hdec csr. subst csr.
  unfold _request_new_certificate, _get_stored_private_key.
  rewrite bind_bind. erewrite bind_run by (apply pull_file; exact Hkey).
  rewrite bind_ret. erewrite bind_run by reflexivity.
  unfold _store_csr. cbn [draws]. rewrite Hdec. unfold or_raise.
  rewrite !bind_bind, bind_ret, ?bind_bind.
  erewrite bind_run
    by (apply push_run; rewrite parent_exists_csr;
        apply (certs_directory_of_artifact private_key_path (File key));
        [left; reflexivity|exact Hkey]).
  reflexivity.
Qed.

Lemma request_new_certificate_no_key w :
  (forall key, files w !! private_key_path <> Some (File key)) ->
  _request_new_certificate w
  = mkOutcome (Raise (PathError private_key_path)) w [Pull private_key_path].
Proof.
  intros Hkey. unfold _request_new_certificate, _get_stored_private_key.
  rewrite bind_bind. erewrite bind_raise by (now apply pull_no_file). reflexivity.
Qed.

(** An expiring event for another certificate than the stored one is
    logged and dropped. *)
Lemma expiring_other_certificate event w stored_certificate :
  reachable w = true ->
  files w !! certificate_path = Some (File stored_certificate) ->
  expiring_certificate event <> stored_certificate ->
  _on_certificate_expiring event w
  = mkOutcome (Ok tt) w
      [CanConnect; Pull certificate_path;
       Log DEBUG "Expiring certificate is not the one stored"].
Proof.
  intros H1 H2 H3. unfold _on_certificate_expiring, can_connect.
  rewrite bind_observe, H1. cbn [negb]. unfold _get_stored_certificate.
  erewrite bind_run by (apply pull_file; exact H2).
  apply String.eqb_neq in H3. rewrite H3. reflexivity.
Qed.

(** An expiring event for the stored certificate starts a renewal. *)
Lemma expiring_stored_certificate event w :
  reachable w = true ->
  files w !! certificate_path = Some (File (expiring_certificate event)) ->
  _on_certificate_expiring event w
  = prepend [CanConnect; Pull certificate_path] (_request_new_certificate w).
Proof.
  intros H1 H2. unfold _on_certificate_expiring, can_connect.
  rewrite bind_observe, H1. cbn [negb]. unfold _get_stored_certificate.
  erewrite bind_run by (apply pull_file; exact H2).
  rewrite String.eqb_refl. cbn [negb]. now rewrite prepend_prepend.
Qed.

(** C5 (the code at the failing input). With the container reachable and
    no certificate file in the workload, a certificate-expiring event is
    not dropped with a log record: reading the stored certificate raises
    [PathError], whatever certificate the event names. *)
Theorem expiring_without_certificate_raises
    (event : CertificateExpiringEvent) (w : world) :
  reachable w = true ->
  (forall content, files w !! certificate_path <> Some (File content)) ->
  _on_certificate_expiring event w
  = mkOutcome (Raise (PathError certificate_path)) w [CanConnect; Pull certificate_path].
Proof.
  intros H1 H2. unfold _on_certificate_expiring, can_connect.
  rewrite bind_observe, H1. cbn [negb]. unfold _get_stored_certificate.
  erewrite bind_raise by (now apply pull_no_file). reflexivity.
Qed.

(** The relation-created handler where the certificates directory exists
    and the drawn key is text ... *)
Lemma created_run w text :
  reachable w = true ->
  decode (private_key_of_draw (draws w)) = Some text ->
  directory_exists CERTS_DIR_PATH (files w) = true ->
  _on_certificates_relation_created w
  = mkOutcome (Ok tt)
      (set_files (write_file private_key_path text false) (next_draw w))
      [CanConnect; GeneratePrivateKey; Push private_key_path text false;
       Log INFO "Pushed private key to workload"].
Proof.
  intros H1 H2 H3. unfold _on_certificates_relation_created, can_connect.
  rewrite bind_observe, H1. cbn [negb].
  unfold _generate_private_key. erewrite bind_run by reflexivity.
  unfold _store_private_key. rewrite H2. unfold or_raise. rewrite bind_ret.
  erewrite bind_run by (apply push_run; rewrite parent_exists_private_key; exact H3).
  reflexivity.
Qed.

(** ... and where the directory is missing. *)
Lemma created_no_directory w text :
  reachable w = true ->
  decode (private_key_of_draw (draws w)) = Some text ->
  directory_exists CERTS_DIR_PATH (files w) = false ->
  _on_certificates_relation_created w
  = mkOutcome (Raise (PathError private_key_path)) (next_draw w)
      [CanConnect; GeneratePrivateKey; Push private_key_path text false].
Proof.
  intros H1 H2 H3. unfold _on_certificates_relation_created, can_connect.
  rewrite bind_observe, H1. cbn [negb].
  unfold _generate_private_key. erewrite bind_run by reflexivity.
  unfold _store_private_key. rewrite H2. unfold or_raise. rewrite bind_ret.
  erewrite bind_raise
    by (apply push_no_parent; rewrite parent_exists_private_key; exact H3).
  reflexivity.
Qed.

(** C8 (amended). With the container reachable, the handler of the
    creation of the certificates relation draws a new private key and
    pushes it to the key file, whether or not a key was stored.  A stored
    key is overwritten by the new one.  More generally the new key is
    stored, and no other file changes, whenever the certificates
    directory exists; when it does not, the push raises [PathError] and
    no file changes. *)
Theorem relation_created_always_generates (w : world) (text : str) :
  reachable w = true ->
  decode (private_key_of_draw (draws w)) = Some text ->
  let o := _on_certificates_relation_created w in
  firstn 3 (calls o)
  = [CanConnect; GeneratePrivateKey; Push private_key_path text false]
  /\ draws (final o) = S (draws w)
  /\ (is_Some (files w !! private_key_path) ->
      res o = Ok tt /\ files (final o) !! private_key_path = Some (File text))
  /\ (directory_exists CERTS_DIR_PATH (files w) = true ->
      res o = Ok tt
      /\ calls o
         = [CanConnect; GeneratePrivateKey; Push private_key_path text false;
            Log INFO "Pushed private key to workload"]
      /\ files (final o) !! private_key_path = Some (File text)
      /\ forall path, path <> private_key_path ->
           files (final o) !! path = files w !! path)
  /\ (directory_exists CERTS_DIR_PATH (files w) = false ->
      res o = Raise (PathError private_key_path)
      /\ files (final o) = files w).
Proof.
  intros H1 H2 o. subst o.
  assert (Hdir : directory_exists CERTS_DIR_PATH (files w) = true ->
            res (_on_certificates_relation_created w) = Ok tt
            /\ calls (_on_certificates_relation_created w)
               = [CanConnect; GeneratePrivateKey; Push private_key_path text false;
                  Log INFO "Pushed private key to workload"]
            /\ files (final (_on_certificates_relation_created w)) !! private_key_path
               = Some (File text)
            /\ forall path, path <> private_key_path ->
                 files (final (_on_certificates_relation_created w)) !! path
                 = files w !! path).
  { intros H3. rewrite (created_run w text H1 H2 H3).
    cbn [res final calls files set_files next_draw]. unfold write_file.
    split; [reflexivity|]. split; [reflexivity|].
    split; [apply lookup_insert_eq|].
    intros path Hne. apply lookup_insert_ne. congruence. }
  destruct (directory_exists CERTS_DIR_PATH (files w)) eqn:H3.
  - rewrite (created_run w text H1 H2 H3) in *.
    cbn [res final calls draws set_files next_draw firstn].
    split; [reflexivity|]. split; [reflexivity|].
    split; [intros _; now destruct (Hdir eq_refl) as (? & _ & ? & _)|].
    split; [exact Hdir|discriminate].
  - rewrite (created_no_directory w text H1 H2 H3).
    cbn [res final calls draws files next_draw firstn].
    split; [reflexivity|]. split; [reflexivity|].
    split; [|split; [discriminate|intros _; split; reflexivity]].
    intros [x Hx].
    rewrite (certs_directory_of_artifact private_key_path x (files w)
               (or_introl eq_refl) Hx) in H3.
    discriminate.
Qed.

(** *** Teardown *)

(** Deleting one artifact: a check, and the removal only if it is there. *)
Lemma delete_artifact_run path message w :
  bind (exists_ path)
       (fun stored =>
          if negb stored then ret tt
          else bind (remove_path path) (fun _ => logger INFO message)) w
  = mkOutcome (Ok tt) (set_files (delete path) w) (deletion_calls path message w).
Proof.
  unfold exists_, deletion_calls. rewrite bind_observe.
  destruct (stored path w) eqn:E; cbn [negb].
  - apply stored_true in E. destruct E as [x Hx].
    erewrite bind_run by (unfold remove_path; rewrite Hx; reflexivity).
    reflexivity.
  - apply stored_false in E. unfold ret, prepend. cbn [app]. f_equal.
    rewrite <- (set_files_id w) at 1. apply set_files_ext.
    symmetry. now apply delete_id.
Qed.

Lemma stored_set_files_delete_ne path other w :
  other <> path -> stored path (set_files (delete other) w) = stored path w.
Proof.
  intros Hne. unfold stored. cbn [files set_files].
  now rewrite lookup_delete_ne.
Qed.

Lemma deletion_calls_delete_ne path message other w :
  other <> path ->
  deletion_calls path message (set_files (delete other) w)
  = deletion_calls path message w.
Proof.
  intros Hne. unfold deletion_calls. now rewrite stored_set_files_delete_ne.
Qed.

Lemma relation_broken_run w :
  reachable w = true ->
  _on_certificates_relation_broken w
  = prepend
      (CanConnect
       :: deletion_calls private_key_path "Removed private key from workload" w
       ++ deletion_calls csr_path "Removed CSR from workload" w
       ++ deletion_calls certificate_path "Removed certificate from workload" w)
      (_configure_ausf (without_identity w)).
Proof.
  intros H1. unfold _on_certificates_relation_broken, can_connect.
  rewrite bind_observe, H1. cbn [negb].
  unfold _delete_private_key, _delete_csr, _delete_certificate,
    _private_key_is_stored, _csr_is_stored, _certificate_is_stored.
  erewrite bind_run by apply delete_artifact_run.
  erewrite bind_run by apply delete_artifact_run.
  erewrite bind_run by apply delete_artifact_run.
  rewrite !prepend_prepend.
  rewrite deletion_calls_delete_ne by discriminate.
  rewrite (deletion_calls_delete_ne certificate_path) by discriminate.
  rewrite (deletion_calls_delete_ne certificate_path) by discriminate.
  cbn [app]. rewrite <- !app_assoc. reflexivity.
Qed.

(** The configuration a pass renders has the scheme the certificate file
    decides. *)
Lemma configure_render_scheme w name b :
  In (Render name b) (calls (_configure_ausf w)) ->
  scheme b = if stored certificate_path w then "https" else "http".
Proof.
  destruct (configure_cases w) as [[c Hc]|[[e He]|[ip Hr]]].
  - rewrite (configure_stops c w Hc). cbn [calls]. intros H.
    apply in_app_or in H. destruct H as [H|H].
    + destruct c; cbn in H; repeat (destruct H as [H|H]; [discriminate|]); destruct H.
    + destruct c; cbn in H; repeat (destruct H as [H|H]; [discriminate|]); destruct H.
  - rewrite He. cbn. intros H. repeat (destruct H as [H|H]; [discriminate|]). destruct H.
  - rewrite (configure_proceeds w ip Hr). cbn [calls]. intros H.
    apply in_app_or in H. destruct H as [H|H].
    { cbn in H. repeat (destruct H as [H|H]; [discriminate|]). destruct H. }
    apply in_app_or in H. destruct H as [H|H].
    { apply in_reconcile_calls in H. destruct H as [H|[_ [H|H]]]; try discriminate.
      cbn in H. destruct H as [H|[H|[H|[H|[H|[]]]]]]; try discriminate.
      injection H as _ <-. reflexivity. }
    apply in_app_or in H. destruct H as [H|H].
    { apply in_supervise_calls in H.
      destruct H as [H|[H|[_ [H|[H|H]]]]]; discriminate. }
    destruct H as [H|[]]. discriminate.
Qed.

(** C9. With the container reachable, the handler of the removal of the
    certificates relation checks each of the private key, the CSR and the
    certificate and removes those that are there (an absent one is only
    checked), without error; then it runs a pass of [_configure_ausf] on
    the world without the three.  Afterwards none of the three files is
    stored, and any configuration the pass renders has scheme "http"; a
    pass whose checks hold does render it. *)
Theorem relation_broken_deletes_then_reconfigures (w : world) :
  reachable w = true ->
  let o := _on_certificates_relation_broken w in
  let pass := _configure_ausf (without_identity w) in
  res o = res pass
  /\ final o = final pass
  /\ calls o
     = CanConnect
       :: deletion_calls private_key_path "Removed private key from workload" w
       ++ deletion_calls csr_path "Removed CSR from workload" w
       ++ deletion_calls certificate_path "Removed certificate from workload" w
       ++ calls pass
  /\ (forall path, In (RemovePath path) (calls o) ->
        stored path w = true
        /\ (path = private_key_path \/ path = csr_path \/ path = certificate_path))
  /\ files (final o) !! private_key_path = None
  /\ files (final o) !! csr_path = None
  /\ files (final o) !! certificate_path = None
  /\ (forall name b, In (Render name b) (calls o) -> scheme b = "http")
  /\ (forall ip, ready (without_identity w) ip ->
        In (Render CONFIG_TEMPLATE_NAME
              (mkBindings AUSF_GROUP_ID ip (published_nrf_url w) SBI_PORT "http"))
           (calls o)).
Proof.
  intros H1 o pass. subst o pass. rewrite (relation_broken_run w H1).
  rewrite res_prepend, final_prepend, calls_prepend.
  assert (Hcert : stored certificate_path (without_identity w) = false).
  { apply stored_false. unfold without_identity. cbn [files set_files].
    apply lookup_delete_eq. }
  assert (Hdel : forall path message c,
             In c (deletion_calls path message w) ->
             c = Exists path
             \/ (stored path w = true
                 /\ (c = RemovePath path \/ c = Log INFO message))).
  { intros path message c. unfold deletion_calls. intros [<-|H]; [now left|].
    destruct (stored path w); [|destruct H]. right. split; [reflexivity|].
    cbn in H. intuition. }
  assert (Hpass : forall path,
             ~ In (RemovePath path) (calls (_configure_ausf (without_identity w)))).
  { intros path H.
    destruct (configure_cases (without_identity w)) as [[c Hc]|[[e He]|[ip Hr]]].
    - rewrite (configure_stops c _ Hc) in H. cbn [calls] in H.
      apply in_app_or in H. destruct H as [H|H];
        destruct c; cbn in H; repeat (destruct H as [H|H]; [discriminate|]); destruct H.
    - rewrite He in H. cbn in H. repeat (destruct H as [H|H]; [discriminate|]). destruct H.
    - rewrite (configure_proceeds _ ip Hr) in H. cbn [calls] in H.
      apply in_app_or in H. destruct H as [H|H].
      { cbn in H. repeat (destruct H as [H|H]; [discriminate|]). destruct H. }
      apply in_app_or in H. destruct H as [H|H].
      { apply in_reconcile_calls in H. destruct H as [H|[_ [H|H]]]; try discriminate.
        cbn in H. repeat (destruct H as [H|H]; [discriminate|]). destruct H. }
      apply in_app_or in H. destruct H as [H|H].
      { apply in_supervise_calls in H.
        destruct H as [H|[H|[_ [H|[H|H]]]]]; discriminate. }
      destruct H as [H|[]]. discriminate. }
  split; [reflexivity|]. split; [reflexivity|].
  split; [cbn [app]; now rewrite <- !app_assoc|].
  split; [|split; [|split; [|split; [|split]]]].
  - intros path H. apply in_app_or in H. destruct H as [H|H]; [|now destruct (Hpass path)].
    destruct H as [H|H]; [discriminate|].
    apply in_app_or in H. destruct H as [H|H]; [|apply in_app_or in H; destruct H as [H|H]];
      apply Hdel in H; destruct H as [H|[Hs [H|H]]]; try discriminate;
      injection H as ->; (split; [exact Hs|auto]).
  - rewrite configure_files_other by discriminate. unfold without_identity.
    cbn [files set_files]. rewrite !lookup_delete_ne by discriminate.
    apply lookup_delete_eq.
  - rewrite configure_files_other by discriminate. unfold without_identity.
    cbn [files set_files]. rewrite lookup_delete_ne by discriminate.
    apply lookup_delete_eq.
  - rewrite configure_files_other by discriminate. unfold without_identity.
    cbn [files set_files]. apply lookup_delete_eq.
  - intros name b H. apply in_app_or in H. destruct H as [H|H].
    + destruct H as [H|H]; [discriminate|].
      apply in_app_or in H.
      destruct H as [H|H]; [|apply in_app_or in H; destruct H as [H|H]];
        apply Hdel in H; destruct H as [H|[Hs [H|H]]]; discriminate.
    + apply configure_render_scheme in H. now rewrite Hcert in H.
  - intros ip Hr. apply in_or_app. right.
    rewrite (configure_proceeds _ ip Hr). cbn [calls].
    apply in_or_app. right. apply in_or_app. left.
    unfold reconcile_calls. apply in_or_app. left.
    unfold reconcile_prefix, desired_bindings. rewrite Hcert. cbn. auto 10.
Qed.

(** *** The stored CSR and the requested CSR *)

Lemma encode_strip_differs csr text :
  decode csr = Some text -> outer_whitespace text = true ->
  encode (strip text) <> csr.
Proof.
  intros Hdec Hws E. apply decode_text in Hdec.
  apply (strip_changes text Hws). rewrite Hdec at 2. rewrite <- E.
  unfold encode. symmetry. apply string_of_list_byte_of_string.
Qed.

(** C10. [_request_new_certificate] sends the generated CSR to the
    provider as it is and stores the stripped text of it.  So when the
    text of the generated CSR has whitespace at its start or end, the
    stored CSR, as [_get_stored_csr] reads it back, is neither the text
    of the requested CSR nor encodes to its bytes, and a
    certificate-available event that carries the text of the request as
    it was sent is dropped with a log record: its certificate is not
    stored. *)
Theorem stripped_csr_rejects_echoed_request
    (w : world) (key text certificate : str) :
  reachable w = true ->
  files w !! private_key_path = Some (File key) ->
  let csr := csr_of_draw (draws w) (encode key) CERTIFICATE_COMMON_NAME
               [CERTIFICATE_COMMON_NAME] in
  decode csr = Some text ->
  outer_whitespace text = true ->
  let o := _request_new_certificate w in
  res o = Ok tt
  /\ In (RequestCertificateCreation csr) (calls o)
  /\ requested (final o) = requested w ++ [csr]
  /\ In (Push csr_path (strip text) false) (calls o)
  /\ res (_get_stored_csr (final o)) = Ok (strip text)
  /\ strip text <> text
  /\ encode (strip text) <> csr
  /\ (let echo := mkAvailable certificate text in
      let o' := _on_certificate_available echo (final o) in
      res o' = Ok tt
      /\ final o' = final o
      /\ calls o'
         = [CanConnect; Exists csr_path; Pull csr_path;
            Log DEBUG "Stored CSR doesn't match one in certificate available event"]
      /\ files (final o') !! certificate_path = files w !! certificate_path).
Proof.
  intros Hr Hkey csr Hdec Hws o. subst o.
  rewrite (request_new_certificate_run w key text Hkey Hdec). fold csr.
  cbn [res final calls].
  set (w' := add_request csr
               (set_files (write_file csr_path (strip text) false) (next_draw w))).
  assert (Hstored : files w' !! csr_path = Some (File (strip text))).
  { subst w'. cbn [files add_request set_files next_draw]. unfold write_file.
    apply lookup_insert_eq. }
  assert (Hne : strip text <> text) by now apply strip_changes.
  split; [reflexivity|]. split; [cbn; auto 10|]. split; [reflexivity|].
  split; [cbn; auto 10|].
  split; [unfold _get_stored_csr; now rewrite (pull_file w' csr_path _ Hstored)|].
  split; [exact Hne|]. split; [now apply encode_strip_differs|].
  cbn zeta.
  rewrite (available_other_csr (mkAvailable certificate text) w' (strip text));
    [|exact Hr|exact Hstored|cbn; congruence].
  cbn [res final calls]. split; [reflexivity|]. split; [reflexivity|].
  split; [reflexivity|].
  subst w'. cbn [files add_request set_files next_draw]. unfold write_file.
  now rewrite lookup_insert_ne by discriminate.
Qed.

(** ** Further properties of the handlers *)

(** *** While the container is unreachable *)

(** X1. While the container is unreachable each of the five certificate
    handlers asks whether it can connect, defers its event and does
    nothing else: no file is read, written or removed, nothing is
    generated or requested, and no error is raised. *)
Theorem unreachable_handlers_only_defer
    (w : world) (available : CertificateAvailableEvent)
    (expiring : CertificateExpiringEvent) :
  reachable w = false ->
  _on_certificates_relation_created w = only_deferred w
  /\ _on_certificates_relation_broken w = only_deferred w
  /\ _on_certificates_relation_joined w = only_deferred w
  /\ _on_certificate_available available w = only_deferred w
  /\ _on_certificate_expiring expiring w = only_deferred w.
Proof.
  intros H.
  unfold _on_certificates_relation_created, _on_certificates_relation_broken,
    _on_certificates_relation_joined, _on_certificate_available,
    _on_certificate_expiring, can_connect.
  rewrite !bind_observe, H. cbn [negb]. repeat split.
Qed.

Lemma unreachable_handlers_idle w (expiring : CertificateExpiringEvent) :
  reachable w = false ->
  _on_certificates_relation_joined w = only_deferred w
  /\ _on_certificate_expiring expiring w = only_deferred w.
Proof.
  intros H. unfold _on_certificates_relation_joined, _on_certificate_expiring, can_connect.
  rewrite !bind_observe, H. split; reflexivity.
Qed.

Lemma expiring_no_file (expiring : CertificateExpiringEvent) w :
  reachable w = true ->
  (forall content, files w !! certificate_path <> Some (File content)) ->
  _on_certificate_expiring expiring w
  = mkOutcome (Raise (PathError certificate_path)) w [CanConnect; Pull certificate_path].
Proof.
  intros H1 H2. unfold _on_certificate_expiring, can_connect.
  rewrite bind_observe, H1. cbn [negb]. unfold _get_stored_certificate.
  erewrite bind_raise by (now apply pull_no_file). reflexivity.
Qed.

(** *** The pod address *)

(** X2. [_get_pod_ip] changes nothing and makes one call to [unit-get].
    It answers [None] exactly when [unit-get] printed nothing; any
    address it answers is the parse of the stripped text of the output;
    an output that is not text or does not parse is an error. *)
Theorem pod_ip_none_iff_no_output (w : world) :
  final (_get_pod_ip w) = w
  /\ calls (_get_pod_ip w) = [CheckOutput ["unit-get"; "private-address"]]
  /\ (res (_get_pod_ip w) = Ok None <-> private_address w = [])
  /\ (forall address,
        res (_get_pod_ip w) = Ok (Some address) <->
        private_address w <> []
        /\ exists text, decode (private_address w) = Some text
                        /\ IPv4Address (strip text) = Some address)
  /\ (private_address w <> [] ->
      decode (private_address w) = None ->
      res (_get_pod_ip w) = Raise UnicodeDecodeError)
  /\ (forall text,
        private_address w <> [] ->
        decode (private_address w) = Some text ->
        IPv4Address (strip text) = None ->
        res (_get_pod_ip w) = Raise AddressValueError).
Proof.
  rewrite get_pod_ip_run. cbn [res final calls].
  split; [reflexivity|]. split; [reflexivity|].
  unfold pod_ip, _get_pod_ip, check_output. rewrite bind_observe, res_prepend.
  destruct (private_address w) as [|b0 bs] eqn:Hout.
  { cbn. split; [tauto|]. split; [|split; [tauto|intros ? H; now destruct H]].
    intros address. split; [discriminate|]. intros [H _]. now destruct H. }
  unfold or_raise. destruct (decode (b0 :: bs)) as [text|] eqn:Hdec.
  - rewrite bind_ret. destruct (IPv4Address (strip text)) as [parsed|] eqn:Hparse.
    + rewrite bind_ret. cbn [res ret]. split; [split; discriminate|].
      split; [|split; [discriminate|intros text' _ [= <-]; congruence]].
      intros address. split.
      * intros [= <-]. split; [discriminate|]. eauto.
      * intros (_ & text' & [= <-] & Hp). congruence.
    + cbn. split; [split; discriminate|].
      split; [|split; [discriminate|reflexivity]].
      intros address. split; [discriminate|].
      intros (_ & text' & [= <-] & Hp). congruence.
  - cbn. split; [split; discriminate|].
    split; [|split; [reflexivity|discriminate]].
    intros address. split; [discriminate|]. intros (_ & text' & [=] & _).
Qed.

(** X3. When the first four checks hold and the address lookup fails, the
    pass ends in that error after the five checks: no status is set, the
    event is not deferred, nothing is written and the service is left
    alone. *)
Theorem address_error_aborts_pass (w : world) (e : exn) :
  container_reachable w = true -> relation_exists w = true ->
  data_available w = true -> storage_attached w = true ->
  res (_get_pod_ip w) = Raise e ->
  let o := _configure_ausf w in
  res o = Raise e /\ final o = w /\ calls o = readiness_checks
  /\ ~ In Defer (calls o)
  /\ forall status, ~ In (SetStatus status) (calls o).
Proof.
  intros H1 H2 H3 H4 H5 o. subst o.
  rewrite (configure_address_raise w e H1 H2 H3 H4 H5). cbn [res final calls].
  split; [reflexivity|]. split; [reflexivity|]. split; [reflexivity|].
  split; [|intros status]; cbn; intros H;
    repeat (destruct H as [H|H]; [discriminate|]); exact H.
Qed.

(** *** What a pass leaves behind *)

Lemma desired_layer_lookup ip :
  services (desired_layer ip) !! _service_name
  = Some (mkService "replace" "enabled"
            ("/bin/ausf --ausfcfg " ++ CONFIG_DIR ++ "/" ++ CONFIG_FILE_NAME)%string
            (<["GOTRACEBACK" := Some "crash"]>
             (<["GRPC_GO_LOG_VERBOSITY_LEVEL" := Some "99"]>
             (<["GRPC_GO_LOG_SEVERITY_LEVEL" := Some "info"]>
             (<["GRPC_TRACE" := Some "all"]>
             (<["GRPC_VERBOSITY" := Some "DEBUG"]>
             (<["POD_IP" := ip]>
             (<["MANAGED_BY_CONFIG_POD" := Some "true"]> ∅)))))))).
Proof. unfold desired_layer. cbn [services]. apply lookup_singleton_eq. Qed.

Lemma desired_layer_lookup_other ip name :
  name <> _service_name -> services (desired_layer ip) !! name = None.
Proof.
  intros Hne. unfold desired_layer. cbn [services].
  apply lookup_singleton_ne. congruence.
Qed.

Lemma plan_supervised_service ip force w :
  plan_services (supervised ip force w) !! _service_name
  = services (desired_layer ip) !! _service_name.
Proof.
  unfold supervised. destruct (spec_changed ip w || force) eqn:Hc.
  - cbn [plan_services set_plan]. rewrite desired_layer_lookup.
    apply lookup_union_Some_l. apply desired_layer_lookup.
  - apply orb_false_iff in Hc. destruct Hc as [Hc _]. unfold spec_changed in Hc.
    apply bool_decide_eq_false in Hc.
    destruct (decide (plan_services w = services (desired_layer ip))) as [E|E];
      [now rewrite E|now destruct Hc].
Qed.

Lemma plan_supervised_other ip force w name :
  name <> _service_name ->
  plan_services (supervised ip force w) !! name = plan_services w !! name.
Proof.
  intros Hne. unfold supervised. destruct (spec_changed ip w || force); [|reflexivity].
  cbn [plan_services set_plan]. apply lookup_union_r.
  now apply desired_layer_lookup_other.
Qed.

Lemma files_reconciled_config ip w :
  files (reconciled ip w) !! config_path = Some (File (desired_config ip w)).
Proof.
  pose proof (config_changed_reconciled ip w) as H. unfold config_changed in H.
  apply negb_false_iff, bool_decide_eq_true in H.
  now rewrite desired_config_reconciled in H.
Qed.

Lemma files_supervised ip force w : files (supervised ip force w) = files w.
Proof. unfold supervised. destruct (_ || _); reflexivity. Qed.

(** The world a proceeding pass leaves. *)
Lemma proceeds_final w ip :
  ready w ip ->
  final (_configure_ausf w)
  = set_unit_status ActiveStatus (supervised ip (config_changed ip w) (reconciled ip w)).
Proof. intros Hr. now rewrite (configure_proceeds w ip Hr). Qed.

(** The readiness of a unit only depends on what a pass does not change,
    and on the storage directory, which a pass keeps. *)
Lemma ready_after_pass w ip : ready w ip -> ready (final (_configure_ausf w)) ip.
Proof.
  intros Hr. rewrite (proceeds_final w ip Hr).
  destruct Hr as (H1 & H2 & H3 & H4 & H5 & H6).
  unfold ready, container_reachable, relation_exists, data_available,
    storage_attached in *.
  assert (Hs : stored CONFIG_DIR (reconciled ip w) = true).
  { unfold reconciled. destruct (config_changed ip w); [|exact H4].
    apply stored_true. cbn [files set_files]. apply write_config_storage.
    now apply stored_true. }
  unfold supervised, reconciled in *.
  destruct (spec_changed ip _ || config_changed ip w), (config_changed ip w);
    cbn [reachable relations published_nrf_url set_unit_status set_plan set_files];
    (split; [exact H1|]); (split; [exact H2|]); (split; [exact H3|]);
    (split; [exact Hs|]); (split; [|exact H6]);
    (etransitivity; [|exact H5]); now apply pod_ip_private_address.
Qed.

Lemma not_in_proceeding_calls (c : call) w ip :
  ~ In c readiness_checks -> ~ In c (reconcile_calls ip w) ->
  ~ In c (supervise_calls ip (config_changed ip w) (reconciled ip w)) ->
  c <> SetStatus ActiveStatus ->
  ~ In c (readiness_checks ++ reconcile_calls ip w
          ++ supervise_calls ip (config_changed ip w) (reconciled ip w)
          ++ [SetStatus ActiveStatus]).
Proof.
  intros H1 H2 H3 H4 H. apply in_app_or in H. destruct H as [H|H]; [auto|].
  apply in_app_or in H. destruct H as [H|H]; [auto|].
  apply in_app_or in H. destruct H as [H|H]; [auto|].
  destruct H as [H|[]]. congruence.
Qed.

Lemma proceeding_pass_converges_aux w ip :
  ready w ip ->
  unit_status (final (_configure_ausf w)) = ActiveStatus
  /\ deferred (final (_configure_ausf w)) = deferred w
  /\ ~ In Defer (calls (_configure_ausf w)).
Proof.
  intros Hr. rewrite (configure_proceeds w ip Hr). cbn [final calls].
  split; [reflexivity|].
  split. { unfold supervised, reconciled. now destruct (_ || _), (config_changed ip w). }
  apply not_in_proceeding_calls; [| | |discriminate].
  - cbn. intros H. repeat (destruct H as [H|H]; [discriminate|]). exact H.
  - intros H. apply in_reconcile_calls in H. destruct H as [H|[_ [H|H]]]; try discriminate.
    cbn in H. repeat (destruct H as [H|H]; [discriminate|]). exact H.
  - intros H. apply in_supervise_calls in H.
    destruct H as [H|[H|[_ [H|[H|H]]]]]; discriminate.
Qed.

(** X4. A pass whose five checks hold ends without error in the active
    status and does not defer the event.  Afterwards the configuration
    file holds the rendered text, the plan's entry for the service is the
    computed one, and the other entries of the plan are as they were. *)
Theorem proceeding_pass_converges (w : world) (ip : option str) :
  ready w ip ->
  let o := _configure_ausf w in
  res o = Ok tt
  /\ unit_status (final o) = ActiveStatus
  /\ deferred (final o) = deferred w
  /\ ~ In Defer (calls o)
  /\ files (final o) !! config_path = Some (File (desired_config ip w))
  /\ plan_services (final o) !! _service_name
     = services (desired_layer ip) !! _service_name
  /\ (forall name, name <> _service_name ->
        plan_services (final o) !! name = plan_services w !! name).
Proof.
  intros Hr o. subst o. rewrite (configure_proceeds w ip Hr). cbn [res final calls].
  split; [reflexivity|]. split; [reflexivity|].
  split. { unfold supervised, reconciled. now destruct (_ || _), (config_changed ip w). }
  split.
  { intros H. apply in_app_or in H. destruct H as [H|H].
    { cbn in H. repeat (destruct H as [H|H]; [discriminate|]). exact H. }
    apply in_app_or in H. destruct H as [H|H].
    { apply in_reconcile_calls in H. destruct H as [H|[_ [H|H]]]; try discriminate.
      cbn in H. repeat (destruct H as [H|H]; [discriminate|]). exact H. }
    apply in_app_or in H. destruct H as [H|H].
    { apply in_supervise_calls in H.
      destruct H as [H|[H|[_ [H|[H|H]]]]]; discriminate. }
    destruct H as [H|[]]. discriminate. }
  cbn [files plan_services set_unit_status].
  split. { rewrite files_supervised. apply files_reconciled_config. }
  split. { apply plan_supervised_service. }
  intros name Hne. rewrite plan_supervised_other by exact Hne.
  now rewrite plan_reconciled.
Qed.

Lemma config_changed_same_inputs ip w w' :
  files w' = files w -> published_nrf_url w' = published_nrf_url w ->
  config_changed ip w' = config_changed ip w.
Proof.
  intros Hf Hn. unfold config_changed, desired_config, desired_bindings, stored.
  now rewrite Hf, Hn.
Qed.

Lemma config_changed_after_pass w ip :
  ready w ip -> config_changed ip (final (_configure_ausf w)) = false.
Proof.
  intros Hr. rewrite (proceeds_final w ip Hr).
  rewrite (config_changed_same_inputs ip (reconciled ip w)).
  - apply config_changed_reconciled.
  - cbn [files set_unit_status]. apply files_supervised.
  - unfold supervised. now destruct (_ || _).
Qed.

Lemma set_unit_status_twice s w :
  set_unit_status s (set_unit_status s w) = set_unit_status s w.
Proof. reflexivity. Qed.

(** X5. When the plan holds no service under another name, a pass that
    follows a pass whose checks held finds nothing to do: it writes no
    file, adds no layer, does not restart the service and leaves the
    world exactly as the first pass left it. *)
Theorem second_pass_is_idle (w : world) (ip : option str) :
  ready w ip ->
  (forall name, name <> _service_name -> plan_services w !! name = None) ->
  let first := _configure_ausf w in
  let again := _configure_ausf (final first) in
  res again = Ok tt
  /\ final again = final first
  /\ forallb quiet (calls again) = true.
Proof.
  intros Hr Honly first again. subst first again.
  pose proof (ready_after_pass w ip Hr) as Hr'.
  pose proof (config_changed_after_pass w ip Hr) as Hc.
  assert (Hs : spec_changed ip (final (_configure_ausf w)) = false).
  { unfold spec_changed. apply bool_decide_eq_false. intros Hne. apply Hne.
    apply map_eq. intros name. rewrite (proceeds_final w ip Hr).
    cbn [plan_services set_unit_status].
    destruct (decide (name = _service_name)) as [->|Hn].
    - apply plan_supervised_service.
    - rewrite plan_supervised_other, plan_reconciled, desired_layer_lookup_other
        by exact Hn. now apply Honly. }
  rewrite (configure_proceeds _ ip Hr'). cbn [res final calls].
  unfold reconciled at 1 2. unfold reconcile_calls. rewrite Hc.
  unfold supervised, supervise_calls. rewrite Hs. cbn [orb].
  split; [reflexivity|]. split; [|reflexivity].
  rewrite (proceeds_final w ip Hr). reflexivity.
Qed.

(** X6. When the plan holds a service under another name, the plan never
    equals the computed layer: every pass whose checks hold restarts the
    service, the one that directly follows such a pass included. *)
Theorem foreign_service_restarts_every_pass
    (w : world) (ip : option str) (name : str) :
  ready w ip ->
  name <> _service_name ->
  is_Some (plan_services w !! name) ->
  let first := _configure_ausf w in
  In (Restart _service_name) (calls first)
  /\ is_Some (plan_services (final first) !! name)
  /\ In (Restart _service_name) (calls (_configure_ausf (final first))).
Proof.
  intros Hr Hne Hsome first. subst first.
  assert (Hrestart : forall w', ready w' ip -> is_Some (plan_services w' !! name) ->
            In (Restart _service_name) (calls (_configure_ausf w'))).
  { intros w' Hr' Hsome'. rewrite (configure_proceeds w' ip Hr'). cbn [calls].
    apply in_or_app. right. apply in_or_app. right. apply in_or_app. left.
    unfold supervise_calls. rewrite spec_changed_reconciled.
    assert (Hs : spec_changed ip w' = true).
    { unfold spec_changed. apply bool_decide_eq_true. intros E.
      rewrite E, desired_layer_lookup_other in Hsome' by exact Hne.
      destruct Hsome' as [x Hx]. discriminate. }
    rewrite Hs. cbn. auto 10. }
  assert (Hkept : is_Some (plan_services (final (_configure_ausf w)) !! name)).
  { rewrite (proceeds_final w ip Hr). cbn [plan_services set_unit_status].
    now rewrite plan_supervised_other, plan_reconciled by exact Hne. }
  split; [now apply Hrestart|]. split; [exact Hkept|].
  apply Hrestart; [now apply ready_after_pass|exact Hkept].
Qed.

(** X7. A pass that ends without error leaves the active, a waiting or
    the blocked status.  It defers the event exactly when it leaves a
    waiting status; when it does not defer, the deferral mark of the
    event is as it was. *)
Theorem deferred_iff_waiting (w : world) :
  let o := _configure_ausf w in
  res o = Ok tt ->
  (unit_status (final o) = ActiveStatus
   \/ (exists reason, unit_status (final o) = WaitingStatus reason)
   \/ (exists reason, unit_status (final o) = BlockedStatus reason))
  /\ (In Defer (calls o) <-> exists reason, unit_status (final o) = WaitingStatus reason)
  /\ (In Defer (calls o) -> deferred (final o) = true)
  /\ (~ In Defer (calls o) -> deferred (final o) = deferred w).
Proof.
  intros o. subst o.
  destruct (configure_cases w) as [[c Hc]|[[e He]|[ip Hr]]].
  - rewrite (configure_stops c w Hc). cbn [res final calls]. intros _.
    assert (Hchecks : ~ In Defer (firstn (S (position c)) readiness_checks)).
    { destruct c; cbn; intros H;
        repeat (destruct H as [H|H]; [discriminate|]); exact H. }
    destruct c; cbn [verdict verdict_calls after_verdict].
    all: try (split; [right; left; eexists; reflexivity|];
              split; [split; [intros _; eexists; reflexivity
                             |intros _; apply in_or_app; right; cbn; auto]|];
              split; [reflexivity|];
              intros Hn; exfalso; apply Hn; apply in_or_app; right; cbn; auto).
    split; [right; right; eexists; reflexivity|].
    assert (Hno : ~ In Defer
                    (firstn (S (position RelationExists)) readiness_checks
                     ++ [SetStatus (BlockedStatus "Waiting for fiveg_nrf relation")])).
    { cbn. intros H. repeat (destruct H as [H|H]; [discriminate|]). exact H. }
    split; [split; [intros H; now destruct Hno|intros [reason H]; discriminate]|].
    split; [intros H; now destruct Hno|reflexivity].
  - rewrite He. cbn [res]. discriminate.
  - intros _.
    destruct (proceeding_pass_converges_aux w ip Hr) as (Hs & Hd & Hn).
    split; [left; exact Hs|].
    split; [split; [intros H; now destruct Hn|intros [reason H]; congruence]|].
    split; [intros H; now destruct Hn|intros _; exact Hd].
Qed.

(** *** A pass and the identity artifacts *)

Lemma reconcile_calls_no_identity ip w :
  forallb (fun c => negb (is_identity_call c)) (reconcile_calls ip w) = true.
Proof.
  unfold reconcile_calls, reconcile_prefix. rewrite forallb_app.
  destruct (config_changed ip w); reflexivity.
Qed.

Lemma supervise_calls_no_identity ip force w :
  forallb (fun c => negb (is_identity_call c)) (supervise_calls ip force w) = true.
Proof.
  unfold supervise_calls. rewrite forallb_app.
  destruct (spec_changed ip w || force); reflexivity.
Qed.

(** X8. A pass of [_configure_ausf], however it ends, leaves the private
    key, the CSR and the certificate as they were, sends no certificate
    request and draws no key or CSR; none of its calls removes a path,
    generates anything or pushes to one of the three identity files. *)
Theorem pass_leaves_identity_alone (w : world) :
  let o := _configure_ausf w in
  files (final o) !! private_key_path = files w !! private_key_path
  /\ files (final o) !! csr_path = files w !! csr_path
  /\ files (final o) !! certificate_path = files w !! certificate_path
  /\ requested (final o) = requested w
  /\ draws (final o) = draws w
  /\ forallb (fun c => negb (is_identity_call c)) (calls o) = true.
Proof.
  intros o. subst o.
  split; [now apply configure_files_other|].
  split; [now apply configure_files_other|].
  split; [now apply configure_files_other|].
  destruct (configure_cases w) as [[c Hc]|[[e He]|[ip Hr]]].
  - rewrite (configure_stops c w Hc). cbn [final calls]. destruct c; repeat split.
  - rewrite He. repeat split.
  - rewrite (configure_proceeds w ip Hr). cbn [final calls].
    split; [|split].
    + unfold supervised, reconciled. now destruct (_ || _), (config_changed ip w).
    + unfold supervised, reconciled. now destruct (_ || _), (config_changed ip w).
    + rewrite !forallb_app, reconcile_calls_no_identity, supervise_calls_no_identity.
      reflexivity.
Qed.

(** *** The relation-joined handler and certificate requests *)

Lemma request_new_certificate_not_text w key :
  files w !! private_key_path = Some (File key) ->
  decode (csr_for key w) = None ->
  _request_new_certificate w
  = mkOutcome (Raise UnicodeDecodeError) (next_draw w)
      [Pull private_key_path;
       GenerateCsr (encode key) CERTIFICATE_COMMON_NAME [CERTIFICATE_COMMON_NAME]].
Proof.
  unfold csr_for. intros Hkey Hdec.
  unfold _request_new_certificate, _get_stored_private_key.
  rewrite bind_bind. erewrite bind_run by (apply pull_file; exact Hkey).
  rewrite bind_ret. erewrite bind_run by reflexivity.
  unfold _store_csr. cbn [draws]. rewrite Hdec. reflexivity.
Qed.

(** Whatever [_request_new_certificate] requests was generated from the
    stored key. *)
Lemma request_needs_key w csr :
  In (RequestCertificateCreation csr) (calls (_request_new_certificate w)) ->
  exists key, files w !! private_key_path = Some (File key) /\ csr = csr_for key w.
Proof.
  destruct (files w !! private_key_path) as [[|key]|] eqn:Hkey.
  - rewrite request_new_certificate_no_key by (intros k; rewrite Hkey; discriminate).
    cbn. intros [H|[]]. discriminate.
  - destruct (decode (csr_for key w)) as [text|] eqn:Hdec.
    + rewrite (request_new_certificate_run w key text Hkey Hdec). cbn.
      intros H. repeat (destruct H as [H|H]; [try discriminate|]); [|destruct H].
      injection H as <-. eauto.
    + rewrite (request_new_certificate_not_text w key Hkey Hdec). cbn.
      intros [H|[H|[]]]; discriminate.
  - rewrite request_new_certificate_no_key by (intros k; rewrite Hkey; discriminate).
    cbn. intros [H|[]]. discriminate.
Qed.

Lemma joined_no_key w :
  reachable w = true -> stored private_key_path w = false ->
  _on_certificates_relation_joined w
  = mkOutcome (Ok tt) (set_deferred w) [CanConnect; Exists private_key_path; Defer].
Proof.
  intros H1 H2. unfold _on_certificates_relation_joined, can_connect.
  rewrite bind_observe, H1. cbn [negb].
  unfold _private_key_is_stored, exists_. rewrite bind_observe, H2. reflexivity.
Qed.

Lemma joined_with_key w :
  reachable w = true -> stored private_key_path w = true ->
  _on_certificates_relation_joined w
  = prepend [CanConnect; Exists private_key_path] (_request_new_certificate w).
Proof.
  intros H1 H2. unfold _on_certificates_relation_joined, can_connect.
  rewrite bind_observe, H1. cbn [negb].
  unfold _private_key_is_stored, exists_. rewrite bind_observe, H2. cbn [negb].
  now rewrite prepend_prepend.
Qed.

(** X9. With the container reachable and no private key stored, the
    relation-joined handler defers the event and does nothing else: no
    CSR is generated or stored and no certificate is requested. *)
Theorem joined_without_key_defers (w : world) :
  reachable w = true ->
  files w !! private_key_path = None ->
  let o := _on_certificates_relation_joined w in
  res o = Ok tt
  /\ final o = set_deferred w
  /\ calls o = [CanConnect; Exists private_key_path; Defer].
Proof.
  intros H1 H2 o. subst o.
  rewrite (joined_no_key w H1) by now apply stored_false.
  repeat split.
Qed.

(** X10. With the container reachable, a private key file stored and a
    generated CSR that is text, the relation-joined handler generates the
    CSR from the stored key for the common name [ausf.sdcore] with that
    name as only DNS name, stores its stripped text, sends the CSR as
    generated to the provider, and does not defer; the key and the
    certificate stay as they were. *)
Theorem joined_with_key_requests (w : world) (key text : str) :
  reachable w = true ->
  files w !! private_key_path = Some (File key) ->
  decode (csr_for key w) = Some text ->
  let o := _on_certificates_relation_joined w in
  res o = Ok tt
  /\ calls o
     = [CanConnect; Exists private_key_path; Pull private_key_path;
        GenerateCsr (encode key) "ausf.sdcore" ["ausf.sdcore"];
        Push csr_path (strip text) false; Log INFO "Pushed CSR to workload";
        RequestCertificateCreation (csr_for key w)]
  /\ files (final o) !! csr_path = Some (File (strip text))
  /\ requested (final o) = requested w ++ [csr_for key w]
  /\ files (final o) !! private_key_path = Some (File key)
  /\ files (final o) !! certificate_path = files w !! certificate_path
  /\ deferred (final o) = deferred w.
Proof.
  intros H1 Hkey Hdec o. subst o.
  rewrite (joined_with_key w H1) by (apply stored_true; rewrite Hkey; eauto).
  rewrite (request_new_certificate_run w key text Hkey Hdec).
  cbn [prepend res final calls app files requested deferred add_request set_files
       next_draw].
  unfold write_file. split; [reflexivity|]. split; [reflexivity|].
  split; [apply lookup_insert_eq|]. split; [reflexivity|].
  split; [now rewrite lookup_insert_ne by discriminate|].
  split; [now rewrite lookup_insert_ne by discriminate|reflexivity].
Qed.

(** X11. No certificate is requested without a stored private key: when
    the relation-joined handler or the certificate-expiring handler sends
    a request, a private key file was stored when the handler started and
    the requested CSR is the one generated from that key. *)
Theorem request_only_with_stored_key
    (w : world) (expiring : CertificateExpiringEvent) (csr : bytes) :
  In (RequestCertificateCreation csr) (calls (_on_certificates_relation_joined w))
  \/ In (RequestCertificateCreation csr) (calls (_on_certificate_expiring expiring w)) ->
  exists key, files w !! private_key_path = Some (File key) /\ csr = csr_for key w.
Proof.
  assert (Hdefer : ~ In (RequestCertificateCreation csr) (calls (only_deferred w))).
  { cbn. intros [H|[H|[]]]; discriminate. }
  destruct (reachable w) eqn:Hr.
  2:{ destruct (unreachable_handlers_idle w expiring Hr) as (Hj & He).
      rewrite Hj, He. tauto. }
  intros [H|H].
  - destruct (stored private_key_path w) eqn:Hs.
    + rewrite (joined_with_key w Hr Hs), calls_prepend in H.
      apply in_app_or in H. destruct H as [H|H]; [|now apply request_needs_key].
      cbn in H. destruct H as [H|[H|[]]]; discriminate.
    + rewrite (joined_no_key w Hr Hs) in H. cbn in H.
      destruct H as [H|[H|[H|[]]]]; discriminate.
  - destruct (files w !! certificate_path) as [[|stored_certificate]|] eqn:Hc.
    + rewrite expiring_no_file in H by (try exact Hr; intros c; rewrite Hc; discriminate).
      cbn in H. destruct H as [H|[H|[]]]; discriminate.
    + destruct (decide (expiring_certificate expiring = stored_certificate)) as [E|E].
      * subst stored_certificate.
        rewrite (expiring_stored_certificate expiring w Hr Hc), calls_prepend in H.
        apply in_app_or in H. destruct H as [H|H]; [|now apply request_needs_key].
        cbn in H. destruct H as [H|[H|[]]]; discriminate.
      * rewrite (expiring_other_certificate expiring w _ Hr Hc E) in H. cbn in H.
        destruct H as [H|[H|[H|[]]]]; discriminate.
    + rewrite expiring_no_file in H by (try exact Hr; intros c; rewrite Hc; discriminate).
      cbn in H. destruct H as [H|[H|[]]]; discriminate.
Qed.

(** *** The private key *)

(** X12. Where the certificates directory exists, a private key that is
    text is pushed to the key file as that text, and
    [_get_stored_private_key] then reads back the bytes that were stored.
    Where the directory is missing the push raises [PathError] and
    nothing is written; a key that is not text is not pushed at all. *)
Theorem stored_private_key_reads_back (w : world) (private_key : bytes) :
  (forall text, decode private_key = Some text ->
     directory_exists CERTS_DIR_PATH (files w) = true ->
     let o := _store_private_key private_key w in
     res o = Ok tt
     /\ calls o = [Push private_key_path text false;
                   Log INFO "Pushed private key to workload"]
     /\ _get_stored_private_key (final o)
        = mkOutcome (Ok private_key) (final o) [Pull private_key_path])
  /\ (forall text, decode private_key = Some text ->
       directory_exists CERTS_DIR_PATH (files w) = false ->
       _store_private_key private_key w
       = mkOutcome (Raise (PathError private_key_path)) w
           [Push private_key_path text false])
  /\ (decode private_key = None ->
      _store_private_key private_key w = mkOutcome (Raise UnicodeDecodeError) w []).
Proof.
  split; [|split].
  - intros text Hdec Hdir o. subst o. unfold _store_private_key. rewrite Hdec.
    unfold or_raise. rewrite bind_ret.
    erewrite bind_run
      by (apply push_run; rewrite parent_exists_private_key; exact Hdir).
    unfold logger.
    cbn [prepend act res final calls app]. split; [reflexivity|]. split; [reflexivity|].
    unfold _get_stored_private_key.
    erewrite bind_run
      by (apply pull_file; cbn [files set_files]; unfold write_file;
          apply lookup_insert_eq).
    unfold ret, prepend. cbn [app]. now rewrite (encode_decode _ _ Hdec).
  - intros text Hdec Hdir. unfold _store_private_key. rewrite Hdec.
    unfold or_raise. rewrite bind_ret.
    erewrite bind_raise
      by (apply push_no_parent; rewrite parent_exists_private_key; exact Hdir).
    reflexivity.
  - intros Hdec. unfold _store_private_key. now rewrite Hdec.
Qed.

(** X13. Where the certificates directory exists, after the
    relation-created handler has stored a generated key, the
    relation-joined handler generates its CSR from exactly the key bytes
    that were generated; when that CSR is text, it is requested and its
    stripped text is stored. *)
Theorem joined_uses_generated_key (w : world) (text : str) :
  reachable w = true ->
  decode (private_key_of_draw (draws w)) = Some text ->
  directory_exists CERTS_DIR_PATH (files w) = true ->
  let private_key := private_key_of_draw (draws w) in
  let csr := csr_of_draw (S (draws w)) private_key CERTIFICATE_COMMON_NAME
               [CERTIFICATE_COMMON_NAME] in
  let o := _on_certificates_relation_joined
             (final (_on_certificates_relation_created w)) in
  In (GenerateCsr private_key CERTIFICATE_COMMON_NAME [CERTIFICATE_COMMON_NAME])
     (calls o)
  /\ (forall csr_text, decode csr = Some csr_text ->
        res o = Ok tt
        /\ requested (final o) = requested w ++ [csr]
        /\ files (final o) !! csr_path = Some (File (strip csr_text))
        /\ files (final o) !! private_key_path = Some (File text)).
Proof.
  intros H1 Hdec Hdir private_key csr o. subst o.
  rewrite (created_run w text H1 Hdec Hdir). cbn [final].
  set (w1 := set_files (write_file private_key_path text false) (next_draw w)).
  assert (Hkey : files w1 !! private_key_path = Some (File text)).
  { subst w1. cbn [files set_files]. unfold write_file. apply lookup_insert_eq. }
  assert (Hbytes : encode text = private_key) by now apply encode_decode.
  assert (Hcsr : csr_for text w1 = csr).
  { unfold csr_for. subst w1 csr. cbn [draws set_files next_draw]. now rewrite Hbytes. }
  rewrite (joined_with_key w1 H1) by (apply stored_true; rewrite Hkey; eauto).
  rewrite calls_prepend, res_prepend, final_prepend.
  split.
  - apply in_or_app. right. destruct (decode (csr_for text w1)) as [csr_text|] eqn:Hd.
    + rewrite (request_new_certificate_run w1 text csr_text Hkey Hd).
      rewrite Hbytes. cbn. auto.
    + rewrite (request_new_certificate_not_text w1 text Hkey Hd).
      rewrite Hbytes. cbn. auto.
  - intros csr_text Hd. rewrite <- Hcsr in Hd.
    rewrite (request_new_certificate_run w1 text csr_text Hkey Hd).
    fold (csr_for text w1). rewrite Hcsr.
    cbn [res final files requested add_request set_files]. unfold write_file.
    split; [reflexivity|]. split; [reflexivity|].
    split; [apply lookup_insert_eq|].
    rewrite lookup_insert_ne by discriminate. exact Hkey.
Qed.

(** *** Renewal *)

(** X14. With the container reachable, a certificate file and a private
    key file stored, and a generated CSR that is text, a
    certificate-expiring event starts a renewal exactly when it names the
    stored certificate: then the stripped CSR is stored and the CSR is
    requested, while the stored certificate stays in place; for any
    other certificate the event is logged and the world is unchanged. *)
Theorem expiring_renews_iff_stored_certificate
    (event : CertificateExpiringEvent) (w : world)
    (stored_certificate key text : str) :
  reachable w = true ->
  files w !! certificate_path = Some (File stored_certificate) ->
  files w !! private_key_path = Some (File key) ->
  decode (csr_for key w) = Some text ->
  let o := _on_certificate_expiring event w in
  res o = Ok tt
  /\ (In (RequestCertificateCreation (csr_for key w)) (calls o)
      <-> expiring_certificate event = stored_certificate)
  /\ (expiring_certificate event = stored_certificate ->
      files (final o) !! csr_path = Some (File (strip text))
      /\ requested (final o) = requested w ++ [csr_for key w]
      /\ files (final o) !! certificate_path = Some (File stored_certificate)
      /\ files (final o) !! private_key_path = Some (File key))
  /\ (expiring_certificate event <> stored_certificate ->
      final o = w
      /\ calls o = [CanConnect; Pull certificate_path;
                    Log DEBUG "Expiring certificate is not the one stored"]).
Proof.
  intros H1 Hc Hkey Hdec o. subst o.
  destruct (decide (expiring_certificate event = stored_certificate)) as [E|E].
  - subst stored_certificate. rewrite (expiring_stored_certificate event w H1 Hc).
    rewrite (request_new_certificate_run w key text Hkey Hdec). fold (csr_for key w).
    cbn [prepend res final calls app files requested add_request set_files].
    unfold write_file. split; [reflexivity|].
    split; [split; [reflexivity|intros _; cbn; auto 10]|].
    split; [|intros Hn; now destruct Hn]. intros _.
    split; [apply lookup_insert_eq|]. split; [reflexivity|].
    rewrite !lookup_insert_ne by discriminate. cbn [files next_draw]. auto.
  - rewrite (expiring_other_certificate event w stored_certificate H1 Hc E).
    cbn [res final calls]. split; [reflexivity|].
    split; [split; [|intros Hn; now destruct E]|].
    + cbn. intros [H|[H|[H|[]]]]; discriminate.
    + split; [intros Hn; now destruct E|]. intros _. split; reflexivity.
Qed.

(** *** From the request to the certificate *)

Lemma ready_with_certificate w ip certificate :
  ready w ip ->
  ready (set_files (write_file certificate_path certificate false) w) ip.
Proof.
  intros (H1 & H2 & H3 & H4 & H5 & H6).
  unfold ready, container_reachable, relation_exists, data_available,
    storage_attached in *.
  split; [exact H1|]. split; [exact H2|]. split; [exact H3|].
  split; [|split; [|exact H6]].
  - apply stored_true. apply stored_true in H4. cbn [files set_files].
    unfold write_file. now rewrite lookup_insert_ne by discriminate.
  - etransitivity; [|exact H5]. now apply pod_ip_private_address.
Qed.

(** X15. When a certificate-available event is accepted, the pass that
    follows renders the configuration with scheme "https" and never with
    "http"; it does render it when the five checks hold. *)
Theorem accepted_certificate_renders_https
    (event : CertificateAvailableEvent) (w : world) :
  reachable w = true ->
  files w !! csr_path = Some (File (certificate_signing_request event)) ->
  let o := _on_certificate_available event w in
  (forall name b, In (Render name b) (calls o) -> scheme b = "https")
  /\ (forall ip, ready w ip ->
        In (Render CONFIG_TEMPLATE_NAME
              (mkBindings AUSF_GROUP_ID ip (published_nrf_url w) SBI_PORT "https"))
           (calls o)
        /\ res o = Ok tt
        /\ unit_status (final o) = ActiveStatus).
Proof.
  intros H1 Hcsr o. subst o. rewrite (available_same_csr event w H1 Hcsr).
  rewrite calls_prepend, res_prepend, final_prepend.
  set (w1 := set_files (write_file certificate_path (available_certificate event) false) w).
  assert (Hstored : stored certificate_path w1 = true).
  { apply stored_true. subst w1. cbn [files set_files]. unfold write_file.
    rewrite lookup_insert_eq. eauto. }
  split.
  - intros name b H. apply in_app_or in H. destruct H as [H|H].
    + cbn in H. repeat (destruct H as [H|H]; [discriminate|]). destruct H.
    + apply configure_render_scheme in H. now rewrite Hstored in H.
  - intros ip Hr. pose proof (ready_with_certificate w ip (available_certificate event) Hr)
      as Hr1. fold w1 in Hr1.
    rewrite (configure_proceeds w1 ip Hr1). cbn [res final calls].
    split; [|split; reflexivity].
    apply in_or_app. right. apply in_or_app. right. apply in_or_app. left.
    unfold reconcile_calls. apply in_or_app. left.
    unfold reconcile_prefix, desired_bindings. rewrite Hstored. cbn. auto 10.
Qed.

(** X16. After [_request_new_certificate] has stored a CSR, a
    certificate-available event that carries the stored (stripped) text
    of that CSR is accepted: its certificate is pushed and the
    certificate file holds it, while the key and the CSR stay stored. *)
Theorem certificate_for_stored_csr_is_accepted
    (w : world) (key text certificate : str) :
  reachable w = true ->
  files w !! private_key_path = Some (File key) ->
  decode (csr_for key w) = Some text ->
  let requested_world := final (_request_new_certificate w) in
  let o := _on_certificate_available (mkAvailable certificate (strip text))
             requested_world in
  In (Push certificate_path certificate false) (calls o)
  /\ files (final o) !! certificate_path = Some (File certificate)
  /\ files (final o) !! csr_path = Some (File (strip text))
  /\ files (final o) !! private_key_path = Some (File key).
Proof.
  intros H1 Hkey Hdec requested_world o. subst o requested_world.
  rewrite (request_new_certificate_run w key text Hkey Hdec). cbn [final].
  fold (csr_for key w).
  set (w1 := add_request (csr_for key w)
               (set_files (write_file csr_path (strip text) false) (next_draw w))).
  assert (Hcsr : files w1 !! csr_path = Some (File (strip text))).
  { subst w1. cbn [files add_request set_files]. unfold write_file.
    apply lookup_insert_eq. }
  assert (Hkey1 : files w1 !! private_key_path = Some (File key)).
  { subst w1. cbn [files add_request set_files next_draw]. unfold write_file.
    now rewrite lookup_insert_ne by discriminate. }
  rewrite (available_same_csr (mkAvailable certificate (strip text)) w1 H1 Hcsr).
  rewrite calls_prepend, final_prepend. cbn [available_certificate].
  split; [cbn; auto 10|].
  rewrite !configure_files_other by discriminate. cbn [files set_files].
  unfold write_file. split; [apply lookup_insert_eq|].
  rewrite !lookup_insert_ne by discriminate. auto.
Qed.

(** *** Teardown, again *)

Lemma pass_keeps_reachable w : reachable (final (_configure_ausf w)) = reachable w.
Proof.
  destruct (configure_cases w) as [[c Hc]|[[e He]|[ip Hr]]].
  - rewrite (configure_stops c w Hc). cbn [final]. now destruct c.
  - now rewrite He.
  - rewrite (proceeds_final w ip Hr). unfold supervised, reconciled.
    now destruct (_ || _), (config_changed ip w).
Qed.


(** X17. Teardown is idempotent: when the relation-broken handler runs a
    second time on the world the first run left, it finds none of the
    three artifacts, removes nothing, and then runs the same pass of
    [_configure_ausf] as a pass run directly on that world. *)
Theorem second_teardown_removes_nothing (w : world) :
  reachable w = true ->
  let first := _on_certificates_relation_broken w in
  let again := _on_certificates_relation_broken (final first) in
  calls again
  = [CanConnect; Exists private_key_path; Exists csr_path; Exists certificate_path]
    ++ calls (_configure_ausf (final first))
  /\ res again = res (_configure_ausf (final first))
  /\ final again = final (_configure_ausf (final first)).
Proof.
  intros H1 first again. subst again first.
  set (w1 := final (_on_certificates_relation_broken w)) in *.
  assert (Hr : reachable w1 = true).
  { subst w1. rewrite (relation_broken_run w H1), final_prepend.
    now rewrite pass_keeps_reachable. }
  assert (Hgone : forall path,
            path = private_key_path \/ path = csr_path \/ path = certificate_path ->
            files w1 !! path = None).
  { intros path Hp. subst w1. rewrite (relation_broken_run w H1), final_prepend.
    rewrite configure_files_other
      by (destruct Hp as [-> | [-> | ->]]; discriminate).
    unfold without_identity. cbn [files set_files].
    destruct Hp as [-> | [-> | ->]].
    - rewrite !lookup_delete_ne by discriminate. apply lookup_delete_eq.
    - rewrite lookup_delete_ne by discriminate. apply lookup_delete_eq.
    - apply lookup_delete_eq. }
  assert (Hsame : without_identity w1 = w1).
  { unfold without_identity. rewrite <- (set_files_id w1) at 2. apply set_files_ext.
    rewrite (delete_id (files w1) private_key_path) by auto.
    rewrite (delete_id (files w1) csr_path) by auto.
    apply delete_id. auto. }
  rewrite (relation_broken_run w1 Hr), Hsame.
  rewrite calls_prepend, res_prepend, final_prepend.
  unfold deletion_calls.
  rewrite !(proj2 (stored_false w1 _)) by auto.
  split; [reflexivity|]. split; reflexivity.
Qed.

(** *** What [strip] leaves *)

Lemma drop_space_fixed back l : space_at back l = None -> drop_space back l = l.
Proof.
  destruct l as [|a r1]; [reflexivity|]. cbn [space_at drop_space].
  destruct (space1 a); [discriminate|].
  destruct r1 as [|b r2]; [reflexivity|].
  destruct (if back then space2 b a else space2 a b); [discriminate|].
  destruct r2 as [|c r3]; [reflexivity|].
  destruct (if back then space3 c b a else space3 a b c); [discriminate|reflexivity].
Qed.

Lemma drop_space_clean back l : space_at back (drop_space back l) = None.
Proof.
  remember (length l) as n eqn:Hn. revert l Hn.
  induction n as [n IH] using lt_wf_ind. intros l Hn.
  destruct l as [|a r1]; [reflexivity|].
  cbn [drop_space]. destruct (space1 a) eqn:E1.
  { apply (IH (length r1)); [subst; cbn; lia|reflexivity]. }
  destruct r1 as [|b r2]; [cbn; now rewrite E1|].
  destruct (if back then space2 b a else space2 a b) eqn:E2.
  { apply (IH (length r2)); [subst; cbn; lia|reflexivity]. }
  destruct r2 as [|c r3]; [cbn; now rewrite E1, E2|].
  destruct (if back then space3 c b a else space3 a b c) eqn:E3.
  { apply (IH (length r3)); [subst; cbn; lia|reflexivity]. }
  cbn. now rewrite E1, E2, E3.
Qed.

(** A text that does not start with whitespace has no prefix that does. *)
Lemma space_at_prefix back p q : space_at back (p ++ q) = None -> space_at back p = None.
Proof.
  destruct p as [|a [|b [|c p]]]; cbn; try reflexivity.
  - destruct (space1 a); [discriminate|reflexivity].
  - destruct (space1 a); [discriminate|]. intros H.
    destruct (if back then space2 b a else space2 a b); [|reflexivity].
    destruct q; discriminate.
  - tauto.
Qed.

Lemma rstrip_codes_prefix l : exists q, l = rstrip_codes l ++ q.
Proof.
  unfold rstrip_codes. destruct (drop_space_suffix true (rev l)) as [pre Hpre].
  exists (rev pre). apply (f_equal (@rev N)) in Hpre.
  rewrite rev_involutive, rev_app_distr in Hpre. exact Hpre.
Qed.

Lemma codes_bounded s : Forall (fun n => (n < 256)%N) (codes s).
Proof.
  unfold codes. induction s as [|a s IH]; cbn; constructor; [|exact IH].
  apply N_ascii_bounded.
Qed.

Lemma codes_of_codes l : Forall (fun n => (n < 256)%N) l -> codes (of_codes l) = l.
Proof.
  unfold codes, of_codes. rewrite list_ascii_of_string_of_list_ascii.
  induction 1 as [|n l Hn _ IH]; cbn; [reflexivity|].
  now rewrite N_ascii_embedding, IH.
Qed.

Lemma of_codes_codes s : of_codes (codes s) = s.
Proof.
  unfold codes, of_codes. rewrite map_map.
  rewrite (map_ext _ (fun a => a)) by (intros a; apply ascii_N_embedding).
  rewrite map_id. apply string_of_list_ascii_of_string.
Qed.

Lemma Forall_app_l {A} (P : A -> Prop) (l1 l2 : list A) :
  Forall P (l1 ++ l2) -> Forall P l1.
Proof. intros H. now apply Forall_app in H. Qed.

Lemma Forall_app_r {A} (P : A -> Prop) (l1 l2 : list A) :
  Forall P (l1 ++ l2) -> Forall P l2.
Proof. intros H. now apply Forall_app in H. Qed.

(** The codes of a stripped text are those that stripping leaves. *)
Lemma codes_strip s : codes (strip s) = rstrip_codes (lstrip_codes (codes s)).
Proof.
  unfold strip. apply codes_of_codes.
  destruct (rstrip_codes_prefix (lstrip_codes (codes s))) as [q Hq].
  destruct (drop_space_suffix false (codes s)) as [pre Hpre].
  pose proof (codes_bounded s) as Hb. rewrite Hpre in Hb.
  apply Forall_app_r in Hb. fold (lstrip_codes (codes s)) in Hb.
  rewrite Hq in Hb. now apply Forall_app_l in Hb.
Qed.

Lemma strip_clean s : outer_whitespace (strip s) = false.
Proof.
  unfold outer_whitespace. rewrite codes_strip.
  apply orb_false_iff. split; apply bool_decide_eq_false; intros [k Hk].
  - destruct (rstrip_codes_prefix (lstrip_codes (codes s))) as [q Hq].
    pose proof (drop_space_clean false (codes s)) as Hc.
    fold (lstrip_codes (codes s)) in Hc. rewrite Hq in Hc.
    apply space_at_prefix in Hc. congruence.
  - unfold rstrip_codes in Hk. rewrite rev_involutive in Hk.
    now rewrite drop_space_clean in Hk.
Qed.

Lemma strip_fixed s : outer_whitespace s = false -> strip s = s.
Proof.
  unfold outer_whitespace. intros H. apply orb_false_iff in H. destruct H as [Hl Hr].
  apply bool_decide_eq_false in Hl, Hr.
  assert (Hl' : space_at false (codes s) = None).
  { destruct (space_at false (codes s)); [destruct Hl; eauto|reflexivity]. }
  assert (Hr' : space_at true (rev (codes s)) = None).
  { destruct (space_at true (rev (codes s))); [destruct Hr; eauto|reflexivity]. }
  unfold strip, lstrip_codes, rstrip_codes.
  rewrite (drop_space_fixed false _ Hl'), (drop_space_fixed true _ Hr').
  rewrite rev_involutive. apply of_codes_codes.
Qed.

(** X18. Where the certificates directory exists, [_store_csr] writes
    to the CSR file the stripped text of the CSR: a text that never
    starts or ends with whitespace and that stripping again leaves
    unchanged.  Where the directory is missing the push raises
    [PathError] and nothing is written; a CSR that is not text is not
    pushed at all. *)
Theorem stored_csr_has_no_outer_whitespace (w : world) (csr : bytes) :
  (forall text, decode csr = Some text ->
     directory_exists CERTS_DIR_PATH (files w) = true ->
     let o := _store_csr csr w in
     res o = Ok tt
     /\ exists stored_text,
          files (final o) !! csr_path = Some (File stored_text)
          /\ stored_text = strip text
          /\ outer_whitespace stored_text = false
          /\ strip stored_text = stored_text)
  /\ (forall text, decode csr = Some text ->
       directory_exists CERTS_DIR_PATH (files w) = false ->
       _store_csr csr w
       = mkOutcome (Raise (PathError csr_path)) w [Push csr_path (strip text) false]
       /\ outer_whitespace (strip text) = false)
  /\ (decode csr = None ->
      _store_csr csr w = mkOutcome (Raise UnicodeDecodeError) w []).
Proof.
  split; [|split].
  - intros text Hdec Hdir o. subst o. unfold _store_csr. rewrite Hdec.
    unfold or_raise. rewrite bind_ret.
    erewrite bind_run by (apply push_run; rewrite parent_exists_csr; exact Hdir).
    unfold logger.
    cbn [prepend act res final files set_files]. split; [reflexivity|].
    exists (strip text). unfold write_file. split; [apply lookup_insert_eq|].
    split; [reflexivity|]. split; [apply strip_clean|].
    apply strip_fixed, strip_clean.
  - intros text Hdec Hdir. split; [|apply strip_clean].
    unfold _store_csr. rewrite Hdec. unfold or_raise. rewrite bind_ret.
    erewrite bind_raise by (apply push_no_parent; rewrite parent_exists_csr; exact Hdir).
    reflexivity.
  - intros Hdec. unfold _store_csr. now rewrite Hdec.
Qed.

(** X19. When the text of the generated CSR has no whitespace at its
    start or end, the stored CSR is that very text, and a
    certificate-available event that carries the text of the request as
    it was sent is accepted: its certificate is stored. *)
Theorem unpadded_csr_accepts_echoed_request
    (w : world) (key text certificate : str) :
  reachable w = true ->
  files w !! private_key_path = Some (File key) ->
  decode (csr_for key w) = Some text ->
  outer_whitespace text = false ->
  let requested_world := final (_request_new_certificate w) in
  let o := _on_certificate_available (mkAvailable certificate text) requested_world in
  files requested_world !! csr_path = Some (File text)
  /\ encode text = csr_for key w
  /\ In (Push certificate_path certificate false) (calls o)
  /\ files (final o) !! certificate_path = Some (File certificate).
Proof.
  intros H1 Hkey Hdec Hws requested_world o. subst o requested_world.
  rewrite (request_new_certificate_run w key text Hkey Hdec). cbn [final].
  fold (csr_for key w). rewrite (strip_fixed text Hws).
  set (w1 := add_request (csr_for key w)
               (set_files (write_file csr_path text false) (next_draw w))).
  assert (Hcsr : files w1 !! csr_path = Some (File text)).
  { subst w1. cbn [files add_request set_files]. unfold write_file.
    apply lookup_insert_eq. }
  split; [exact Hcsr|]. split; [now apply encode_decode|].
  rewrite (available_same_csr (mkAvailable certificate text) w1 H1 Hcsr).
  rewrite calls_prepend, final_prepend. cbn [available_certificate].
  split; [cbn; auto 10|].
  rewrite configure_files_other by discriminate. cbn [files set_files].
  unfold write_file. apply lookup_insert_eq.
Qed.

End Charm.

(** ** Concrete runs *)

(** On a new unit the first pass restarts the service: the configuration
    file did not exist. *)
Lemma restart_iff_spec_or_config_changed_witness :
  ready sample_IPv4Address sample_fresh (Some sample_address)
  /\ In (Restart _service_name)
        (calls (_configure_ausf sample_template sample_IPv4Address sample_fresh)).
Proof.
  assert (Hr : ready sample_IPv4Address sample_fresh (Some sample_address))
    by (repeat split; reflexivity).
  split; [exact Hr|].
  destruct (restart_iff_spec_or_config_changed
              sample_template sample_IPv4Address sample_fresh (Some sample_address) Hr)
    as (changed & layer & Hchanged & _ & Hiff & _).
  apply Hiff. right. vm_compute in Hchanged. now injection Hchanged as <-.
Defined.

(** An available certificate whose CSR is the stored one is stored. *)
Lemma certificate_stored_iff_csr_matches_witness :
  reachable sample_certified = true
  /\ files (final (_on_certificate_available sample_template sample_IPv4Address
                     (mkAvailable "issued certificate" "stored csr") sample_certified))
       !! certificate_path
     = Some (File "issued certificate").
Proof.
  split; [reflexivity|].
  apply (certificate_stored_iff_csr_matches sample_template sample_IPv4Address
           (mkAvailable "issued certificate" "stored csr") sample_certified eq_refl).
  reflexivity.
Defined.

(** Container unreachable and relation missing: one check, then wait. *)
Lemma gate_order_short_circuit_witness :
  container_reachable sample_unreachable = false
  /\ relation_exists sample_unreachable = false
  /\ calls (_configure_ausf sample_template sample_IPv4Address sample_unreachable)
     = [CanConnect; SetStatus (WaitingStatus "Waiting for container to start"); Defer].
Proof.
  split; [reflexivity|]. split; [reflexivity|].
  apply (gate_order_short_circuit sample_template sample_IPv4Address sample_unreachable).
  reflexivity.
Defined.

(** Relation missing: blocked, and the event is not deferred. *)
Lemma transient_defers_missing_relation_blocks_witness :
  first_to_fail sample_IPv4Address RelationExists sample_unrelated = true
  /\ deferred (final (_configure_ausf sample_template sample_IPv4Address sample_unrelated))
     = deferred sample_unrelated.
Proof.
  split; [reflexivity|].
  apply (transient_defers_missing_relation_blocks sample_template sample_IPv4Address
           RelationExists sample_unrelated eq_refl).
  reflexivity.
Defined.

(** An expiring event on a unit without certificate file ends in an error. *)
Lemma expiring_without_certificate_raises_witness :
  reachable sample_fresh = true
  /\ res (_on_certificate_expiring sample_csr_of_draw
            (mkExpiring "some certificate") sample_fresh)
     = Raise (PathError certificate_path).
Proof.
  split; [reflexivity|].
  rewrite (expiring_without_certificate_raises sample_csr_of_draw
             (mkExpiring "some certificate") sample_fresh eq_refl).
  - reflexivity.
  - intros content. vm_compute. discriminate.
Defined.

(** On a new unit the first pass adds the layer. *)
Lemma layer_applied_iff_restart_witness :
  ready sample_IPv4Address sample_fresh (Some sample_address)
  /\ In (AddLayer _container_name (desired_layer (Some sample_address)) true)
        (calls (_configure_ausf sample_template sample_IPv4Address sample_fresh)).
Proof.
  assert (Hr : ready sample_IPv4Address sample_fresh (Some sample_address))
    by (repeat split; reflexivity).
  split; [exact Hr|].
  destruct (layer_applied_iff_restart
              sample_template sample_IPv4Address sample_fresh (Some sample_address) Hr)
    as (changed & layer & Hchanged & Hlayer & Hiff & _).
  vm_compute in Hchanged. injection Hchanged as <-.
  assert (El : layer = desired_layer (Some sample_address)).
  { assert (E : res (_pebble_layer sample_IPv4Address
                       (final (_apply_ausf_config sample_template sample_IPv4Address
                                 sample_fresh)))
                = Ok (desired_layer (Some sample_address)))
      by (vm_compute; reflexivity).
    rewrite E in Hlayer. now injection Hlayer. }
  subst layer. apply Hiff. now right.
Defined.

(** On a new unit reconciliation reports a change. *)
Lemma config_written_iff_differs_witness :
  pod_ip sample_IPv4Address sample_fresh = Ok (Some sample_address)
  /\ res (_apply_ausf_config sample_template sample_IPv4Address sample_fresh) = Ok true.
Proof.
  split; [reflexivity|].
  destruct (config_written_iff_differs sample_template sample_IPv4Address sample_fresh
              (Some sample_address) eq_refl) as (_ & _ & _ & Hmissing & _).
  apply Hmissing. reflexivity.
Defined.

(** A new key is written over the stored one. *)
Lemma relation_created_always_generates_witness :
  reachable sample_certified = true
  /\ decode (sample_private_key_of_draw (draws sample_certified))
     = Some ("-----NEW PRIVATE KEY-----" ++ sample_newline)%string
  /\ files (final (_on_certificates_relation_created sample_private_key_of_draw
                     sample_certified)) !! private_key_path
     = Some (File ("-----NEW PRIVATE KEY-----" ++ sample_newline)%string).
Proof.
  split; [reflexivity|]. split; [reflexivity|].
  destruct (relation_created_always_generates sample_private_key_of_draw
              sample_certified ("-----NEW PRIVATE KEY-----" ++ sample_newline)%string
              eq_refl eq_refl) as (_ & _ & Hstored & _).
  apply Hstored. eexists. reflexivity.
Defined.

(** After the relation is removed no certificate is stored. *)
Lemma relation_broken_deletes_then_reconfigures_witness :
  reachable sample_certified = true
  /\ files (final (_on_certificates_relation_broken sample_template sample_IPv4Address
                     sample_certified)) !! certificate_path
     = None.
Proof.
  split; [reflexivity|].
  apply (relation_broken_deletes_then_reconfigures sample_template sample_IPv4Address
           sample_certified eq_refl).
Defined.

(** A CSR that ends in a newline is stored without it. *)
Lemma stripped_csr_rejects_echoed_request_witness :
  reachable sample_certified = true
  /\ files sample_certified !! private_key_path = Some (File "-----OLD PRIVATE KEY-----")
  /\ decode (sample_csr_of_draw 0 (encode "-----OLD PRIVATE KEY-----")
               CERTIFICATE_COMMON_NAME [CERTIFICATE_COMMON_NAME])
     = Some sample_csr_text
  /\ outer_whitespace sample_csr_text = true
  /\ strip sample_csr_text <> sample_csr_text.
Proof.
  split; [reflexivity|]. split; [reflexivity|]. split; [reflexivity|].
  split; [reflexivity|].
  apply (stripped_csr_rejects_echoed_request sample_template sample_csr_of_draw
           sample_IPv4Address sample_certified "-----OLD PRIVATE KEY-----" sample_csr_text
           "issued certificate" eq_refl eq_refl eq_refl eq_refl).
Defined.

(** ** Where the code departs from the stated behaviour *)

(** C6 as stated fails: on a unit that has converged, a pass reaches the
    service step (it reads the plan) and adds no layer. *)
Lemma layer_not_applied_when_converged :
  let o := _configure_ausf sample_template sample_IPv4Address sample_converged in
  ready sample_IPv4Address sample_converged (Some sample_address)
  /\ res (_pebble_layer sample_IPv4Address sample_converged)
     = Ok (desired_layer (Some sample_address))
  /\ res o = Ok tt
  /\ In GetPlan (calls o)
  /\ forallb (fun c => negb (is_add_layer c)) (calls o) = true
  /\ ~ In (AddLayer _container_name (desired_layer (Some sample_address)) true) (calls o).
Proof.
  cbn zeta.
  assert (Hno : forallb (fun c => negb (is_add_layer c))
                  (calls (_configure_ausf sample_template sample_IPv4Address
                            sample_converged)) = true)
    by (vm_compute; reflexivity).
  split; [repeat split; reflexivity|]. split; [reflexivity|].
  split; [vm_compute; reflexivity|].
  split; [vm_compute; auto 20|]. split; [exact Hno|].
  intros Hin. rewrite forallb_forall in Hno. apply Hno in Hin. discriminate.
Qed.

(** C8 as stated fails: with a private key stored, the handler draws a new
    key and writes it over the stored one. *)
Lemma relation_created_overwrites_stored_key :
  let o := _on_certificates_relation_created sample_private_key_of_draw
             sample_certified in
  reachable sample_certified = true
  /\ files sample_certified !! private_key_path
     = Some (File "-----OLD PRIVATE KEY-----")
  /\ files (final o) !! private_key_path
     = Some (File ("-----NEW PRIVATE KEY-----" ++ sample_newline)%string)
  /\ files (final o) !! private_key_path <> files sample_certified !! private_key_path
  /\ In GeneratePrivateKey (calls o)
  /\ In (Push private_key_path ("-----NEW PRIVATE KEY-----" ++ sample_newline)%string
           false) (calls o).
Proof.
  cbn zeta. split; [reflexivity|]. split; [reflexivity|].
  split; [vm_compute; reflexivity|]. split; [vm_compute; discriminate|].
  split; vm_compute; auto 10.
Qed.

(** ** Concrete runs of the further properties *)

Lemma unreachable_handlers_only_defer_witness :
  reachable sample_unreachable = false
  /\ _on_certificates_relation_broken sample_template sample_IPv4Address
       sample_unreachable
     = only_deferred sample_unreachable.
Proof.
  split; [reflexivity|].
  apply (unreachable_handlers_only_defer sample_template sample_private_key_of_draw
           sample_csr_of_draw sample_IPv4Address sample_unreachable
           (mkAvailable "c" "r") (mkExpiring "c") eq_refl).
Defined.

Lemma address_error_aborts_pass_witness :
  res (_get_pod_ip sample_IPv4Address sample_misaddressed) = Raise AddressValueError
  /\ final (_configure_ausf sample_template sample_IPv4Address sample_misaddressed)
     = sample_misaddressed.
Proof.
  split; [reflexivity|].
  apply (address_error_aborts_pass sample_template sample_IPv4Address
           sample_misaddressed AddressValueError eq_refl eq_refl eq_refl eq_refl eq_refl).
Defined.

Lemma sample_fresh_ready : ready sample_IPv4Address sample_fresh (Some sample_address).
Proof. repeat split; reflexivity. Defined.

Lemma sample_shared_ready : ready sample_IPv4Address sample_shared (Some sample_address).
Proof. repeat split; reflexivity. Defined.

Lemma sample_certified_ready :
  ready sample_IPv4Address sample_certified (Some sample_address).
Proof. repeat split; reflexivity. Defined.

Lemma proceeding_pass_converges_witness :
  ready sample_IPv4Address sample_fresh (Some sample_address)
  /\ unit_status (final (_configure_ausf sample_template sample_IPv4Address sample_fresh))
     = ActiveStatus.
Proof.
  split; [exact sample_fresh_ready|].
  apply (proceeding_pass_converges sample_template sample_IPv4Address sample_fresh
           (Some sample_address) sample_fresh_ready).
Defined.

Lemma second_pass_is_idle_witness :
  ready sample_IPv4Address sample_fresh (Some sample_address)
  /\ (forall name, name <> _service_name -> plan_services sample_fresh !! name = None)
  /\ forallb quiet
       (calls (_configure_ausf sample_template sample_IPv4Address
                 (final (_configure_ausf sample_template sample_IPv4Address
                           sample_fresh))))
     = true.
Proof.
  assert (Honly : forall name, name <> _service_name ->
                    plan_services sample_fresh !! name = None)
    by (intros name _; apply lookup_empty).
  split; [exact sample_fresh_ready|]. split; [exact Honly|].
  apply (second_pass_is_idle sample_template sample_IPv4Address sample_fresh
           (Some sample_address) sample_fresh_ready Honly).
Defined.

Lemma foreign_service_restarts_every_pass_witness :
  ready sample_IPv4Address sample_shared (Some sample_address)
  /\ is_Some (plan_services sample_shared !! "sidecar")
  /\ In (Restart _service_name)
        (calls (_configure_ausf sample_template sample_IPv4Address
                  (final (_configure_ausf sample_template sample_IPv4Address
                            sample_shared)))).
Proof.
  assert (Hs : is_Some (plan_services sample_shared !! "sidecar"))
    by (eexists; reflexivity).
  split; [exact sample_shared_ready|]. split; [exact Hs|].
  apply (foreign_service_restarts_every_pass sample_template sample_IPv4Address
           sample_shared (Some sample_address) "sidecar" sample_shared_ready);
    [discriminate|exact Hs].
Defined.

Lemma deferred_iff_waiting_witness :
  res (_configure_ausf sample_template sample_IPv4Address sample_unreachable) = Ok tt
  /\ deferred (final (_configure_ausf sample_template sample_IPv4Address
                        sample_unreachable)) = true.
Proof.
  split; [reflexivity|].
  destruct (deferred_iff_waiting sample_template sample_IPv4Address sample_unreachable
              eq_refl) as (_ & _ & Hd & _).
  apply Hd. cbn. auto.
Defined.

Lemma joined_without_key_defers_witness :
  reachable sample_fresh = true
  /\ files sample_fresh !! private_key_path = None
  /\ final (_on_certificates_relation_joined sample_csr_of_draw sample_fresh)
     = set_deferred sample_fresh.
Proof.
  split; [reflexivity|]. split; [reflexivity|].
  apply (joined_without_key_defers sample_csr_of_draw sample_fresh eq_refl eq_refl).
Defined.

Lemma joined_with_key_requests_witness :
  reachable sample_certified = true
  /\ files sample_certified !! private_key_path = Some (File sample_key)
  /\ decode (csr_for sample_csr_of_draw sample_key sample_certified)
     = Some sample_csr_text
  /\ requested (final (_on_certificates_relation_joined sample_csr_of_draw
                         sample_certified))
     = [csr_for sample_csr_of_draw sample_key sample_certified].
Proof.
  split; [reflexivity|]. split; [reflexivity|]. split; [reflexivity|].
  apply (joined_with_key_requests sample_csr_of_draw sample_certified sample_key
           sample_csr_text eq_refl eq_refl eq_refl).
Defined.

Lemma request_only_with_stored_key_witness :
  In (RequestCertificateCreation (csr_for sample_csr_of_draw sample_key sample_certified))
     (calls (_on_certificates_relation_joined sample_csr_of_draw sample_certified))
  /\ exists key,
       files sample_certified !! private_key_path = Some (File key)
       /\ csr_for sample_csr_of_draw sample_key sample_certified
          = csr_for sample_csr_of_draw key sample_certified.
Proof.
  assert (Hin : In (RequestCertificateCreation
                      (csr_for sample_csr_of_draw sample_key sample_certified))
                   (calls (_on_certificates_relation_joined sample_csr_of_draw
                             sample_certified)))
    by (vm_compute; auto 10).
  split; [exact Hin|].
  apply (request_only_with_stored_key sample_csr_of_draw sample_certified
           (mkExpiring "c") _ (or_introl Hin)).
Defined.

Lemma stored_private_key_reads_back_witness :
  decode (sample_private_key_of_draw 0)
  = Some ("-----NEW PRIVATE KEY-----" ++ sample_newline)%string
  /\ directory_exists CERTS_DIR_PATH (files sample_mounted) = true
  /\ res (_get_stored_private_key
            (final (_store_private_key (sample_private_key_of_draw 0) sample_mounted)))
     = Ok (sample_private_key_of_draw 0).
Proof.
  split; [reflexivity|]. split; [reflexivity|].
  destruct (stored_private_key_reads_back sample_mounted (sample_private_key_of_draw 0))
    as [Hok _].
  destruct (Hok _ eq_refl eq_refl) as (_ & _ & Hread). now rewrite Hread.
Defined.

Lemma joined_uses_generated_key_witness :
  reachable sample_mounted = true
  /\ decode (sample_private_key_of_draw (draws sample_mounted))
     = Some ("-----NEW PRIVATE KEY-----" ++ sample_newline)%string
  /\ directory_exists CERTS_DIR_PATH (files sample_mounted) = true
  /\ In (GenerateCsr (sample_private_key_of_draw 0) CERTIFICATE_COMMON_NAME
           [CERTIFICATE_COMMON_NAME])
        (calls (_on_certificates_relation_joined sample_csr_of_draw
                  (final (_on_certificates_relation_created sample_private_key_of_draw
                            sample_mounted)))).
Proof.
  split; [reflexivity|]. split; [reflexivity|]. split; [reflexivity|].
  apply (joined_uses_generated_key sample_private_key_of_draw sample_csr_of_draw
           sample_mounted _ eq_refl eq_refl eq_refl).
Defined.

Lemma expiring_renews_iff_stored_certificate_witness :
  reachable sample_certified = true
  /\ files sample_certified !! certificate_path = Some (File "stored certificate")
  /\ files sample_certified !! private_key_path = Some (File sample_key)
  /\ decode (csr_for sample_csr_of_draw sample_key sample_certified)
     = Some sample_csr_text
  /\ res (_on_certificate_expiring sample_csr_of_draw (mkExpiring "stored certificate")
            sample_certified) = Ok tt.
Proof.
  split; [reflexivity|]. split; [reflexivity|]. split; [reflexivity|].
  split; [reflexivity|].
  assert (Hdec : decode (csr_for sample_csr_of_draw sample_key sample_certified)
                 = Some sample_csr_text) by (vm_compute; reflexivity).
  destruct (expiring_renews_iff_stored_certificate sample_csr_of_draw
              (mkExpiring "stored certificate") sample_certified "stored certificate"
              sample_key sample_csr_text eq_refl eq_refl eq_refl Hdec) as [Hok _].
  exact Hok.
Defined.

Lemma accepted_certificate_renders_https_witness :
  reachable sample_certified = true
  /\ files sample_certified !! csr_path = Some (File "stored csr")
  /\ unit_status
       (final (_on_certificate_available sample_template sample_IPv4Address
                 (mkAvailable "issued certificate" "stored csr") sample_certified))
     = ActiveStatus.
Proof.
  split; [reflexivity|]. split; [reflexivity|].
  destruct (accepted_certificate_renders_https sample_template sample_IPv4Address
              (mkAvailable "issued certificate" "stored csr") sample_certified
              eq_refl eq_refl) as [_ Hready].
  apply (Hready (Some sample_address) sample_certified_ready).
Defined.

Lemma certificate_for_stored_csr_is_accepted_witness :
  reachable sample_certified = true
  /\ files sample_certified !! private_key_path = Some (File sample_key)
  /\ decode (csr_for sample_csr_of_draw sample_key sample_certified)
     = Some sample_csr_text
  /\ files (final (_on_certificate_available sample_template sample_IPv4Address
                     (mkAvailable "issued certificate" (strip sample_csr_text))
                     (final (_request_new_certificate sample_csr_of_draw
                               sample_certified))))
       !! certificate_path
     = Some (File "issued certificate").
Proof.
  split; [reflexivity|]. split; [reflexivity|]. split; [reflexivity|].
  apply (certificate_for_stored_csr_is_accepted sample_template sample_csr_of_draw
           sample_IPv4Address sample_certified sample_key sample_csr_text
           "issued certificate" eq_refl eq_refl eq_refl).
Defined.

Lemma second_teardown_removes_nothing_witness :
  reachable sample_certified = true
  /\ res (_on_certificates_relation_broken sample_template sample_IPv4Address
            (final (_on_certificates_relation_broken sample_template
                      sample_IPv4Address sample_certified)))
     = res (_configure_ausf sample_template sample_IPv4Address
              (final (_on_certificates_relation_broken sample_template
                        sample_IPv4Address sample_certified))).
Proof.
  split; [reflexivity|].
  apply (second_teardown_removes_nothing sample_template sample_IPv4Address
           sample_certified eq_refl).
Defined.

Lemma stored_csr_has_no_outer_whitespace_witness :
  decode (sample_csr_of_draw 0 [] CERTIFICATE_COMMON_NAME []) = Some sample_csr_text
  /\ directory_exists CERTS_DIR_PATH (files sample_mounted) = true
  /\ res (_store_csr (sample_csr_of_draw 0 [] CERTIFICATE_COMMON_NAME []) sample_mounted)
     = Ok tt.
Proof.
  split; [reflexivity|]. split; [reflexivity|].
  destruct (stored_csr_has_no_outer_whitespace sample_mounted
              (sample_csr_of_draw 0 [] CERTIFICATE_COMMON_NAME [])) as [Hok _].
  apply (Hok sample_csr_text eq_refl eq_refl).
Defined.

Lemma unpadded_csr_accepts_echoed_request_witness :
  reachable sample_certified = true
  /\ files sample_certified !! private_key_path = Some (File sample_key)
  /\ decode (csr_for sample_bare_csr_of_draw sample_key sample_certified)
     = Some sample_bare_csr_text
  /\ outer_whitespace sample_bare_csr_text = false
  /\ files (final (_on_certificate_available sample_template sample_IPv4Address
                     (mkAvailable "issued certificate" sample_bare_csr_text)
                     (final (_request_new_certificate sample_bare_csr_of_draw
                               sample_certified))))
       !! certificate_path
     = Some (File "issued certificate").
Proof.
  split; [reflexivity|]. split; [reflexivity|]. split; [reflexivity|].
  split; [reflexivity|].
  apply (unpadded_csr_accepts_echoed_request sample_template sample_bare_csr_of_draw
           sample_IPv4Address sample_certified sample_key sample_bare_csr_text
           "issued certificate" eq_refl eq_refl eq_refl eq_refl).
Defined.
